(** * notion-sync: price feeds to Notion rows

    A shallow embedding of the two scripts of the repository,
    [crypto_etf_sync.py] and [crypto_sync.py], and the properties of their
    retry loop, quote extraction, row lookup and row update.

    The scripts are sequential Python: every function is embedded as a
    computation in a state-and-exception monad over a [world] that answers
    HTTP requests, tells the time and records what the script did. *)

From Stdlib Require Import ZArith Ascii String SpecFloat.
From stdpp Require Import base option list strings gmap sorting.

Local Open Scope Z_scope.
Set Warnings "-register-all".

(** ** Python values *)

Module Py.

(** IEEE 754 binary64, the representation of a Python [float]. *)
Abbreviation float := spec_float.
Definition prec : Z := 53.
Definition emax : Z := 1024.

(** The values the scripts handle: what [json.loads] produces ([None],
    [bool], [int], [float], [str] as its UTF-8 bytes, [list], [dict] with
    string keys in insertion order; a [dict] has one entry per key, and the
    operations below look at the first) and, for module namespaces, opaque
    objects such as imported modules and functions. *)
Inductive value : Type :=
| VNone
| VBool (b : bool)
| VInt (n : Z)
| VFloat (f : float)
| VStr (s : string)
| VList (items : list value)
| VDict (entries : list (string * value))
| VObject (description : string).

(** Exceptions the scripts raise or let through. *)
Inductive exn : Type :=
| HTTPError (status_code : Z)
| RequestException
| JSONDecodeError
| RuntimeError (message : string)
| NameError (name : string)
| KeyError (key : value)
| IndexError
| TypeError
| AttributeError
| ValueError
| OverflowError
| InvalidJSONError.

Inductive result (A : Type) : Type :=
| Ok (a : A)
| Raise (e : exn).
Arguments Ok {A} a.
Arguments Raise {A} e.

#[export] Instance result_ret : MRet result := @Ok.
#[export] Instance result_bind : MBind result := fun A B f r =>
  match r with
  | Ok a => f a
  | Raise e => Raise e
  end.

(** Built-ins of the interpreter the scripts call and whose text is not part
    of the repository: [str()] of a value, as used by f-strings and [print],
    and the parser behind [float()] of a [str]. *)
Class Builtins := {
  py_str : value -> string;
  float_of_str : string -> option float;
}.

(** Truth value of an object, as tested by [if], [not] and [or]. *)
Definition truthy (v : value) : bool :=
  match v with
  | VNone => false
  | VBool b => b
  | VInt n => negb (n =? 0)
  | VFloat (S754_zero _) => false
  | VFloat _ => true
  | VStr s => negb (String.eqb s EmptyString)
  | VList items => match items with [] => false | _ => true end
  | VDict entries => match entries with [] => false | _ => true end
  | VObject _ => true
  end.

(** Lookup in a [dict]: the entry of the key. *)
Fixpoint dict_lookup (key : string) (entries : list (string * value)) : option value :=
  match entries with
  | [] => None
  | (k, v) :: rest => if String.eqb k key then Some v else dict_lookup key rest
  end.

(** [d[key] = v] on a [dict]: replaces the entry, or appends a new one. *)
Fixpoint dict_set (key : string) (v : value) (entries : list (string * value))
  : list (string * value) :=
  match entries with
  | [] => [(key, v)]
  | (k, v0) :: rest =>
      if String.eqb k key then (k, v) :: rest else (k, v0) :: dict_set key v rest
  end.

Definition dict_keys (entries : list (string * value)) : list string := entries.*1.

(** A [float] that is NaN or an infinity. *)
Definition non_finite (f : float) : bool :=
  match f with
  | S754_nan | S754_infinity _ => true
  | S754_zero _ | S754_finite _ _ _ => false
  end.

(** [json.dumps(v, allow_nan=False)], as far as it can fail: the encoder
    refuses a [float] that is NaN or an infinity with [ValueError] and an
    object that is no JSON value with [TypeError]; the first one met, in
    document order, is the one raised. *)
Fixpoint json_dumps_error (v : value) : option exn :=
  match v with
  | VNone | VBool _ | VInt _ | VStr _ => None
  | VFloat f => if non_finite f then Some ValueError else None
  | VList items =>
      (fix go (l : list value) : option exn :=
         match l with
         | [] => None
         | x :: rest =>
             match json_dumps_error x with
             | Some e => Some e
             | None => go rest
             end
         end) items
  | VDict entries =>
      (fix go (l : list (string * value)) : option exn :=
         match l with
         | [] => None
         | (_, x) :: rest =>
             match json_dumps_error x with
             | Some e => Some e
             | None => go rest
             end
         end) entries
  | VObject _ => Some TypeError
  end.

(** [s == v] for a [str] s. *)
Definition str_eq_value (s : string) (v : value) : bool :=
  match v with
  | VStr s' => String.eqb s s'
  | _ => false
  end.

Fixpoint is_prefix (p s : string) : bool :=
  match p, s with
  | EmptyString, _ => true
  | String a p', String b s' => Ascii.eqb a b && is_prefix p' s'
  | String _ _, EmptyString => false
  end.

Fixpoint is_substring (p s : string) : bool :=
  is_prefix p s ||
  match s with
  | EmptyString => false
  | String _ s' => is_substring p s'
  end.

(** [key in container] for a [str] key. *)
Definition py_in (key : string) (container : value) : result bool :=
  match container with
  | VDict entries => Ok (bool_decide (is_Some (dict_lookup key entries)))
  | VList items => Ok (existsb (str_eq_value key) items)
  | VStr s => Ok (is_substring key s)
  | _ => Raise TypeError
  end.

(** [obj.get(key, default)]: only a [dict] has the method. *)
Definition py_get (obj : value) (key : string) (default : value) : result value :=
  match obj with
  | VDict entries => Ok (from_option id default (dict_lookup key entries))
  | _ => Raise AttributeError
  end.

(** [obj[key]] for a [str] key: a [dict] looks the key up; a [list] or [str]
    rejects a [str] index and the other types have no subscription. *)
Definition py_item (obj : value) (key : string) : result value :=
  match obj with
  | VDict entries =>
      match dict_lookup key entries with
      | Some v => Ok v
      | None => Raise (KeyError (VStr key))
      end
  | _ => Raise TypeError
  end.

(** [obj[i]] for an [int] i >= 0. The keys of a decoded [dict] are [str], so
    an [int] is never among them. *)
Definition py_index (obj : value) (i : nat) : result value :=
  match obj with
  | VList items =>
      match items !! i with
      | Some v => Ok v
      | None => Raise IndexError
      end
  | VStr s =>
      match String.get i s with
      | Some c => Ok (VStr (String c EmptyString))
      | None => Raise IndexError
      end
  | VDict _ => Raise (KeyError (VInt (Z.of_nat i)))
  | _ => Raise TypeError
  end.

(** [float(v)]. An [int] is rounded to the nearest binary64 (ties to even) and
    refused when it is beyond the range. *)
Definition float_of_int (n : Z) : result float :=
  match binary_normalize prec emax n 0 false with
  | S754_infinity _ => Raise OverflowError
  | f => Ok f
  end.

Definition py_float `{Builtins} (v : value) : result float :=
  match v with
  | VFloat f => Ok f
  | VInt n => float_of_int n
  | VBool b => float_of_int (if b then 1 else 0)
  | VStr s =>
      match float_of_str s with
      | Some f => Ok f
      | None => Raise ValueError
      end
  | _ => Raise TypeError
  end.

(** A replacement field [{v}] of an f-string and an argument of [print]:
    a [str] stands for itself, anything else goes through [str()]. *)
Definition format_value `{Builtins} (v : value) : string :=
  match v with
  | VStr s => s
  | _ => py_str v
  end.

(** [sep.join(parts)] *)
Fixpoint str_join (sep : string) (parts : list string) : string :=
  match parts with
  | [] => EmptyString
  | [p] => p
  | p :: rest => p +:+ sep +:+ str_join sep rest
  end.

(** [s.upper()] on the ASCII letters, the only ones the scripts apply it to. *)
Definition upper_ascii (a : ascii) : ascii :=
  let n := nat_of_ascii a in
  if ((97 <=? n) && (n <=? 122))%nat then ascii_of_nat (n - 32) else a.

Fixpoint str_upper (s : string) : string :=
  match s with
  | EmptyString => EmptyString
  | String a s' => String (upper_ascii a) (str_upper s')
  end.

(** Decimal digits of a natural number, most significant first. The fuel
    bounds the number of digits; the number of binary digits is enough. *)
Definition digit (d : N) : ascii := ascii_of_N (48 + d).

Fixpoint decimal_fuel (fuel : nat) (n : N) (acc : string) : string :=
  match fuel with
  | O => acc
  | S fuel' =>
      let acc' := String (digit (n mod 10)) acc in
      if (n <? 10)%N then acc' else decimal_fuel fuel' (n / 10) acc'
  end.

Definition decimal (n : N) : string :=
  decimal_fuel (S (N.to_nat (N.log2 n))) n EmptyString.

(** [str(n)] for an [int]. *)
Definition str_of_int (n : Z) : string :=
  if n <? 0 then String "-" (decimal (Z.to_N (- n))) else decimal (Z.to_N n).

Fixpoint zeros (k : nat) : string :=
  match k with
  | O => EmptyString
  | S k' => String "0" (zeros k')
  end.

(** ["%0wd" % n]: at least [w] digits, padded with zeros on the left. *)
Definition format_d (w : nat) (n : N) : string :=
  let s := decimal n in
  zeros (w - String.length s) +:+ s.

(** ** [datetime] *)

(** An aware [datetime] whose [tzinfo] is [timezone.utc], as
    [datetime.now(timezone.utc)] returns it. *)
Record datetime : Type := {
  year : N;
  month : N;
  day : N;
  hour : N;
  minute : N;
  second : N;
  microsecond : N;
}.

(** The ranges the [datetime] class enforces on its fields. *)
Definition valid_datetime (d : datetime) : Prop :=
  (1 <= year d <= 9999 /\ 1 <= month d <= 12 /\ 1 <= day d <= 31 /\
   hour d < 24 /\ minute d < 60 /\ second d < 60 /\ microsecond d < 1000000)%N.

(** [d.isoformat()] for such a datetime: the fraction is printed only when
    the microseconds are not zero, and the offset of UTC is [+00:00]. *)
Definition isoformat (d : datetime) : string :=
  format_d 4 (year d) +:+ "-" +:+ format_d 2 (month d) +:+ "-" +:+ format_d 2 (day d)
  +:+ "T" +:+ format_d 2 (hour d) +:+ ":" +:+ format_d 2 (minute d)
  +:+ ":" +:+ format_d 2 (second d)
  +:+ (if (microsecond d =? 0)%N then EmptyString
       else "." +:+ format_d 6 (microsecond d))
  +:+ "+00:00".

(** The value of a date field that starts at an instant:
    [{"date": {"start": now.isoformat()}}]. *)
Definition date_field (now : datetime) : value :=
  VDict [("date", VDict [("start", VStr (isoformat now))])].

(** A recogniser of the texts [YYYY-MM-DDTHH:MM:SS+00:00] and
    [YYYY-MM-DDTHH:MM:SS.ffffff+00:00]: ISO 8601 date and time with the
    offset of UTC. *)
Inductive char_class : Type :=
| Digit
| Exactly (a : ascii).

Definition is_digit (a : ascii) : bool :=
  let n := nat_of_ascii a in ((48 <=? n) && (n <=? 57))%nat.

Definition in_class (c : char_class) (a : ascii) : bool :=
  match c with
  | Digit => is_digit a
  | Exactly b => Ascii.eqb a b
  end.

Fixpoint matches (pattern : list char_class) (s : string) : bool :=
  match pattern, s with
  | [], EmptyString => true
  | c :: pattern', String a s' => in_class c a && matches pattern' s'
  | _, _ => false
  end.

Definition literal (s : string) : list char_class :=
  Exactly <$> list_ascii_of_string s.

Definition iso_date_time : list char_class :=
  replicate 4 Digit ++ literal "-" ++ replicate 2 Digit ++ literal "-"
  ++ replicate 2 Digit ++ literal "T" ++ replicate 2 Digit ++ literal ":"
  ++ replicate 2 Digit ++ literal ":" ++ replicate 2 Digit.

Definition is_iso8601_utc (s : string) : bool :=
  matches (iso_date_time ++ literal "+00:00") s
  || matches (iso_date_time ++ literal "." ++ replicate 6 Digit ++ literal "+00:00") s.

End Py.

(** ** The world of a run: the network, the clock and the terminal *)

Module World.
Import Py.

(** What [requests] hands back: the status line, the body as text, and the
    body as [r.json()] decodes it, when it is JSON. *)
Record response : Type := {
  status_code : Z;
  text : string;
  json_body : option value;
}.

(** The outcome of one HTTP exchange: a response, or none (connection
    failure, timeout), which [requests] reports by an exception. *)
Inductive reply : Type :=
| Answered (r : response)
| Unanswered.

Inductive http_method : Type := GET | POST | PATCH.

Record request : Type := {
  method : http_method;
  url : string;
  params : list (string * string);
  headers : list (string * string);
  json : option value;
  timeout : Z;
}.

(** What a run does that can be observed from outside, in order. *)
Inductive event : Type :=
| Requested (rq : request)
| Slept (seconds : Z)
| Printed (line : string).

(** The state a run threads: the reply the network gives to the n-th request
    of the run, the instant the clock shows at its n-th reading, how many of
    each were consumed, and the events so far (oldest first). *)
Record world : Type := {
  replies : nat -> reply;
  sent : nat;
  instants : nat -> datetime;
  clock_reads : nat;
  log : list event;
}.

(** Computations: a result or an exception, and the world after it. *)
Definition M (A : Type) : Type := world -> result A * world.

#[export] Instance M_ret : MRet M := fun A a w => (Ok a, w).
#[export] Instance M_bind : MBind M := fun A B f m w =>
  match m w with
  | (Ok a, w') => f a w'
  | (Raise e, w') => (Raise e, w')
  end.

Definition raise {A} (e : exn) : M A := fun w => (Raise e, w).

(** A pure step that may raise. *)
Definition lift {A} (r : result A) : M A := fun w => (r, w).

Definition record (e : event) (w : world) : world :=
  {| replies := replies w; sent := sent w; instants := instants w;
     clock_reads := clock_reads w; log := log w ++ [e] |}.

(** [requests.request(...)]: the request goes out, and the next reply of the
    network comes back or [requests] raises. *)
Definition requests_send (rq : request) : M response := fun w =>
  let w' := {| replies := replies w; sent := S (sent w); instants := instants w;
               clock_reads := clock_reads w; log := log w ++ [Requested rq] |} in
  match replies w (sent w) with
  | Answered r => (Ok r, w')
  | Unanswered => (Raise RequestException, w')
  end.

Definition requests_get (url : string) (params headers : list (string * string))
    (timeout : Z) : M response :=
  requests_send {| method := GET; url := url; params := params; headers := headers;
                   json := None; timeout := timeout |}.

(** The [json=] argument of a request: [requests] encodes it while it
    prepares the request, with [allow_nan=False], and turns the [ValueError]
    of the encoder into its [InvalidJSONError]; nothing has been sent then. *)
Definition encode_json (json : value) : M unit :=
  match json_dumps_error json with
  | Some ValueError => raise InvalidJSONError
  | Some e => raise e
  | None => mret ()
  end.

Definition requests_post (url : string) (headers : list (string * string))
    (json : value) (timeout : Z) : M response :=
  encode_json json;;
  requests_send {| method := POST; url := url; params := []; headers := headers;
                   json := Some json; timeout := timeout |}.

Definition requests_patch (url : string) (headers : list (string * string))
    (json : value) (timeout : Z) : M response :=
  encode_json json;;
  requests_send {| method := PATCH; url := url; params := []; headers := headers;
                   json := Some json; timeout := timeout |}.

(** [r.raise_for_status()]: the client and server error classes raise. *)
Definition error_status (status : Z) : bool := (400 <=? status) && (status <? 600).

Definition raise_for_status (r : response) : M unit :=
  if error_status (status_code r)
  then raise (HTTPError (status_code r))
  else mret ().

(** What a status check makes of a reply, and the notice the updater of
    [crypto_etf_sync.py] prints for a reply of status 400 or more. *)
Definition status_outcome (rp : reply) : result unit :=
  match rp with
  | Unanswered => Raise RequestException
  | Answered r =>
      if error_status (status_code r) then Raise (HTTPError (status_code r)) else Ok ()
  end.

Definition failure_notice (rp : reply) : list event :=
  match rp with
  | Answered r =>
      if 400 <=? status_code r
      then [Printed ("[Notion] Update failed: " +:+ str_of_int (status_code r)
                     +:+ " " +:+ text r)]
      else []
  | Unanswered => []
  end.

(** [r.json()] *)
Definition response_json (r : response) : M value :=
  match json_body r with
  | Some v => mret v
  | None => raise JSONDecodeError
  end.

(** [time.sleep(seconds)] *)
Definition time_sleep (seconds : Z) : M unit := fun w =>
  if seconds <? 0 then (Raise ValueError, w) else (Ok (), record (Slept seconds) w).

(** [print(line)] *)
Definition print (line : string) : M unit := fun w => (Ok (), record (Printed line) w).

(** [datetime.now(timezone.utc)] *)
Definition datetime_now_utc : M datetime := fun w =>
  (Ok (instants w (clock_reads w)),
   {| replies := replies w; sent := sent w; instants := instants w;
      clock_reads := S (clock_reads w); log := log w |}).

(** The world once [requests] more requests were sent, the clock was read
    [reads] more times and [events] were added. *)
Definition later (w : world) (requests reads : nat) (events : list event) : world :=
  {| replies := replies w; sent := sent w + requests; instants := instants w;
     clock_reads := clock_reads w + reads; log := log w ++ events |}.

(** The n-th request from now is answered, with this status. *)
Definition answered_with (w : world) (n : nat) (status : Z) : Prop :=
  exists r, replies w (sent w + n)%nat = Answered r /\ status_code r = status.

(** The store's side of an update of a row: the fields named in the
    [properties] of the payload take the values given, the other fields of
    the row stay as they are. *)
Definition patch_row (row properties : list (string * value)) : list (string * value) :=
  foldl (fun fields '(name, v) => dict_set name v fields) row properties.

(** [for x in xs: body] with a body that neither breaks nor returns. *)
Fixpoint for_each {A} (xs : list A) (body : A -> M unit) : M unit :=
  match xs with
  | [] => mret ()
  | x :: rest => body x ;; for_each rest body
  end.

(** A request that changes the store: the scripts write by PATCH only. *)
Definition is_write (rq : request) : bool :=
  match method rq with
  | PATCH => true
  | GET | POST => false
  end.

(** Seconds slept in all. *)
Definition total (seconds : list Z) : Z := foldr Z.add 0 seconds.

(** The requests among the events. *)
Definition requests_of (events : list event) : list request :=
  omap (fun e => match e with Requested rq => Some rq | _ => None end) events.

Definition sleeps_of (events : list event) : list Z :=
  omap (fun e => match e with Slept s => Some s | _ => None end) events.

(** A computation that ends in an exception from any world. *)
Definition always_raises {A} (m : M A) : Prop :=
  forall w, exists e, (m w).1 = Raise e.

Definition writes_of (events : list event) : list request :=
  filter (fun rq => is_write rq = true) (requests_of events).

(** A computation that from any world sends at most [n] requests, at most
    [p] of them writes, and sleeps at most [s] seconds in all; the counter of
    requests of the world moves with the requests in the log. *)
Definition within {A} (m : M A) (n p : nat) (s : Z) : Prop :=
  forall w, exists reads events,
    (m w).2 = later w (length (requests_of events)) reads events /\
    (length (requests_of events) <= n)%nat /\
    (length (writes_of events) <= p)%nat /\
    total (sleeps_of events) <= s.

End World.

(** ** The batch crypto quote operation, common to both scripts *)

Module CoinGecko.
Import Py World.

(** [range(n)] *)
Definition range (n : nat) : list Z := Z.of_nat <$> seq 0 n.

Section Fetch.
(** [coingecko_get_prices] is written out in both scripts; the two texts
    differ in the [User-Agent] header and in the message of the final
    [RuntimeError] only, which are the parameters here. *)
Variable user_agent : string.
Variable rate_limited_message : string.

Definition endpoint : string := "https://api.coingecko.com/api/v3/simple/price".

Definition query (coin_ids : list string) (vs : string) : list (string * string) :=
  [("ids", str_join "," coin_ids); ("vs_currencies", vs)].

Definition request_headers : list (string * string) := [("User-Agent", user_agent)].

(** The body of [for attempt in range(6)] over the attempts that remain,
    followed by the statement after the loop. *)
Fixpoint attempt_loop (coin_ids : list string) (vs : string) (attempts : list Z)
  : M value :=
  match attempts with
  | [] => raise (RuntimeError rate_limited_message)
  | attempt :: rest =>
      r ← requests_get endpoint (query coin_ids vs) request_headers 20;
      if status_code r =? 429 then
        let sleep_s := 2 * (attempt + 1) in
        print ("[CoinGecko] 429 rate limited, sleep " +:+ str_of_int sleep_s +:+ "s...");;
        time_sleep sleep_s;;
        attempt_loop coin_ids vs rest
      else
        raise_for_status r;;
        response_json r
  end.

Definition coingecko_get_prices (coin_ids : list string) (vs : string) : M value :=
  attempt_loop coin_ids vs (range 6).

(** The one request of the operation, and the events of an attempt that was
    answered by 429: the request, the notice, the wait. *)
Definition price_request (coin_ids : list string) (vs : string) : request :=
  {| method := GET; url := endpoint; params := query coin_ids vs;
     headers := request_headers; json := None; timeout := 20 |}.

(** What the loop makes of a reply that is not a 429: the statements after
    the [if]. *)
Definition final_outcome (rp : reply) : result value :=
  match rp with
  | Unanswered => Raise RequestException
  | Answered r =>
      if error_status (status_code r) then Raise (HTTPError (status_code r))
      else match json_body r with
           | Some v => Ok v
           | None => Raise JSONDecodeError
           end
  end.

Definition rate_limited_attempt (coin_ids : list string) (vs : string) (attempt : Z)
  : list event :=
  [Requested (price_request coin_ids vs);
   Printed ("[CoinGecko] 429 rate limited, sleep " +:+ str_of_int (2 * (attempt + 1))
            +:+ "s...");
   Slept (2 * (attempt + 1))].
End Fetch.

End CoinGecko.

(** ** [crypto_etf_sync.py] *)

Module CryptoEtfSync.
Import Py World.

(** The module body: three settings are read from the environment, and a
    missing one stops the import. *)
Definition environ_item (environ : gmap string string) (name : string) : result string :=
  match environ !! name with
  | Some s => Ok s
  | None => Raise (KeyError (VStr name))
  end.

Record settings : Type := {
  NOTION_TOKEN : string;
  CRYPTO_DB_ID : string;
  ETF_DB_ID : string;
}.

Definition module_body (environ : gmap string string) : result settings :=
  token ← environ_item environ "NOTION_TOKEN";
  crypto_db ← environ_item environ "NOTION_CRYPTO_DB_ID";
  etf_db ← environ_item environ "NOTION_ETF_DB_ID";
  mret {| NOTION_TOKEN := token; CRYPTO_DB_ID := crypto_db; ETF_DB_ID := etf_db |}.

Definition dquote : string := String "034" EmptyString.

Section Script.
Context `{Builtins} (cfg : settings).

Definition NOTION_HEADERS : list (string * string) :=
  [("Authorization", "Bearer " +:+ NOTION_TOKEN cfg);
   ("Notion-Version", "2022-06-28");
   ("Content-Type", "application/json")].

Definition VS_CURRENCY : string := "aud".

Definition CRYPTO : list (string * string) :=
  [("Bitcoin", "bitcoin"); ("WLFI", "world-liberty-financial")].

Definition ETFS : list (string * string) :=
  [("IVV", "IVV.AX"); ("AGS", "AGS.AX")].

Definition TITLE_PROP : string := "Name".
Definition PRICE_PROP : string := "Current Price".
Definition LAST_UPDATED_PROP : string := "Last Updated".

Definition coingecko_get_prices : list string -> string -> M value :=
  CoinGecko.coingecko_get_prices "notion-sync/1.0"
    "CoinGecko rate limited too many times (429).".

Definition yahoo_last_price (ticker : string) : M (option float) :=
  let url := "https://query1.finance.yahoo.com/v8/finance/chart/" +:+ ticker in
  let params := [("interval", "1m"); ("range", "1d"); ("includePrePost", "false")] in
  let headers := [("User-Agent", "notion-sync/1.0")] in
  r ← requests_get url params headers 20;
  raise_for_status r;;
  data ← response_json r;
  chart ← lift (py_get data "chart" (VDict []));
  result ← lift (py_get chart "result" VNone);
  chart' ← lift (py_get data "chart" (VDict []));
  err ← lift (py_get chart' "error" VNone);
  if truthy err || negb (truthy result) then mret None
  else
    first ← lift (py_index result 0);
    meta ← lift (py_get first "meta" (VDict []));
    live ← lift (py_get meta "regularMarketPrice" VNone);
    price ← (if truthy live then mret live
             else lift (py_get meta "previousClose" VNone));
    match price with
    | VNone => mret None
    | _ => f ← lift (py_float price); mret (Some f)
    end.

(** What [yahoo_last_price] makes of a decoded body, once the reply has
    passed the status check: the statements after [data = r.json()]. *)
Definition quote_of (data : value) : result (option float) :=
  chart ← py_get data "chart" (VDict []);
  result ← py_get chart "result" VNone;
  err ← py_get chart "error" VNone;
  if truthy err || negb (truthy result) then Ok None
  else
    first ← py_index result 0;
    meta ← py_get first "meta" (VDict []);
    live ← py_get meta "regularMarketPrice" VNone;
    price ← (if truthy live then Ok live else py_get meta "previousClose" VNone);
    match price with
    | VNone => Ok None
    | _ => f ← py_float price; Ok (Some f)
    end.

Definition notion_get_database_properties (database_id : string) : M value :=
  let url := "https://api.notion.com/v1/databases/" +:+ database_id in
  r ← requests_get url [] NOTION_HEADERS 20;
  raise_for_status r;;
  body ← response_json r;
  lift (py_get body "properties" (VDict [])).

Definition notion_find_page_id_by_title (database_id title_value : string) : M value :=
  let url := "https://api.notion.com/v1/databases/" +:+ database_id +:+ "/query" in
  let payload :=
    VDict [("filter", VDict [("property", VStr TITLE_PROP);
                             ("title", VDict [("equals", VStr title_value)])])] in
  r ← requests_post url NOTION_HEADERS payload 20;
  raise_for_status r;;
  body ← response_json r;
  results ← lift (py_get body "results" (VList []));
  if negb (truthy results) then
    raise (RuntimeError ("Notion DB(" +:+ database_id +:+ ") 找不到 " +:+ TITLE_PROP
                         +:+ " == " +:+ dquote +:+ title_value +:+ dquote +:+ " 的行"))
  else
    first ← lift (py_index results 0);
    lift (py_item first "id").

(** What [notion_find_page_id_by_title] makes of a decoded body: the
    statements after [r.json()]. *)
Definition page_id_of (database_id title_value : string) (body : value) : result value :=
  results ← py_get body "results" (VList []);
  if negb (truthy results) then
    Raise (RuntimeError ("Notion DB(" +:+ database_id +:+ ") 找不到 " +:+ TITLE_PROP
                         +:+ " == " +:+ dquote +:+ title_value +:+ dquote +:+ " 的行"))
  else
    first ← py_index results 0;
    py_item first "id".

Definition notion_update_price (database_props page_id : value) (price : float) : M unit :=
  has_price ← lift (py_in PRICE_PROP database_props);
  if negb has_price then
    raise (RuntimeError ("Notion 数据库缺少列: " +:+ PRICE_PROP))
  else
    let props_payload := [(PRICE_PROP, VDict [("number", VFloat price)])] in
    has_last_updated ← lift (py_in LAST_UPDATED_PROP database_props);
    props_payload ←
      (if has_last_updated : bool then
         now ← datetime_now_utc;
         mret (dict_set LAST_UPDATED_PROP
                 (VDict [("date", VDict [("start", VStr (isoformat now))])])
                 props_payload)
       else mret props_payload);
    let url := "https://api.notion.com/v1/pages/" +:+ format_value page_id in
    let payload := VDict [("properties", VDict props_payload)] in
    r ← requests_patch url NOTION_HEADERS payload 20;
    (if 400 <=? status_code r then
       print ("[Notion] Update failed: " +:+ str_of_int (status_code r) +:+ " " +:+ text r)
     else mret ());;
    raise_for_status r.

(** The body of the loop of [sync_crypto], for one entry of [CRYPTO]. *)
Definition sync_crypto_body (db_props prices : value) (item : string * string) : M unit :=
  let '(notion_name, cg_id) := item in
  listed ← lift (py_in cg_id prices);
  quoted ← (if negb listed then mret false
            else quotes ← lift (py_item prices cg_id);
                 lift (py_in VS_CURRENCY quotes));
  if negb quoted then
    raise (RuntimeError ("CoinGecko 返回缺少 " +:+ cg_id +:+ "/" +:+ VS_CURRENCY
                         +:+ ": " +:+ format_value prices))
  else
    quotes ← lift (py_item prices cg_id);
    quote ← lift (py_item quotes VS_CURRENCY);
    price ← lift (py_float quote);
    page_id ← notion_find_page_id_by_title (CRYPTO_DB_ID cfg) notion_name;
    notion_update_price db_props page_id price;;
    print ("✅ Crypto Updated " +:+ notion_name +:+ ": " +:+ py_str (VFloat price)
           +:+ " " +:+ str_upper VS_CURRENCY).

(** The requests the functions above send. *)
Definition quote_request (ticker : string) : request :=
  {| method := GET;
     url := "https://query1.finance.yahoo.com/v8/finance/chart/" +:+ ticker;
     params := [("interval", "1m"); ("range", "1d"); ("includePrePost", "false")];
     headers := [("User-Agent", "notion-sync/1.0")];
     json := None; timeout := 20 |}.

Definition schema_request (database_id : string) : request :=
  {| method := GET; url := "https://api.notion.com/v1/databases/" +:+ database_id;
     params := []; headers := NOTION_HEADERS; json := None; timeout := 20 |}.

Definition query_request (database_id title_value : string) : request :=
  {| method := POST;
     url := "https://api.notion.com/v1/databases/" +:+ database_id +:+ "/query";
     params := []; headers := NOTION_HEADERS;
     json := Some (VDict [("filter",
                           VDict [("property", VStr TITLE_PROP);
                                  ("title", VDict [("equals", VStr title_value)])])]);
     timeout := 20 |}.

(** The properties [notion_update_price] puts in its payload, with the
    instant of the update when it stamps it. *)
Definition update_properties (price : float) (stamp : option datetime)
  : list (string * value) :=
  (PRICE_PROP, VDict [("number", VFloat price)])
  :: from_option (fun now => [(LAST_UPDATED_PROP, date_field now)]) [] stamp.

Definition update_request (page_id : value) (props_payload : list (string * value))
  : request :=
  {| method := PATCH;
     url := "https://api.notion.com/v1/pages/" +:+ format_value page_id;
     params := []; headers := NOTION_HEADERS;
     json := Some (VDict [("properties", VDict props_payload)]);
     timeout := 20 |}.

(** The quote of a coin in a currency is missing from a decoded price
    mapping: the coin has no entry, or its entry has none for the currency. *)
Definition lacks_pair (prices : list (string * value)) (cg_id vs : string) : bool :=
  match dict_lookup cg_id prices with
  | None => true
  | Some (VDict quotes) => negb (bool_decide (is_Some (dict_lookup vs quotes)))
  | Some _ => false
  end.

Definition sync_crypto : M unit :=
  print "=== Sync Crypto ===";;
  db_props ← notion_get_database_properties (CRYPTO_DB_ID cfg);
  prices ← coingecko_get_prices (CRYPTO.*2) VS_CURRENCY;
  for_each CRYPTO (sync_crypto_body db_props prices).

(** The body of the loop of [sync_etfs], for one entry of [ETFS]. *)
Definition sync_etfs_body (db_props : value) (item : string * string) : M unit :=
  let '(notion_name, ticker) := item in
  price ← yahoo_last_price ticker;
  match price with
  | None =>
      raise (RuntimeError ("Yahoo 无法获取价格：" +:+ ticker
                           +:+ "（可能代码不对或未收录）"))
  | Some price =>
      page_id ← notion_find_page_id_by_title (ETF_DB_ID cfg) notion_name;
      notion_update_price db_props page_id price;;
      print ("✅ ETF Updated " +:+ notion_name +:+ " (" +:+ ticker +:+ "): "
             +:+ py_str (VFloat price) +:+ " AUD")
  end.

Definition sync_etfs : M unit :=
  print "=== Sync ETFs (ASX via Yahoo) ===";;
  db_props ← notion_get_database_properties (ETF_DB_ID cfg);
  for_each ETFS (sync_etfs_body db_props).

Definition main : M unit :=
  sync_crypto;;
  sync_etfs;;
  print "🎉 All done.".
End Script.

(** Running the script: the module body, then [main]. *)
Definition run `{Builtins} (environ : gmap string string) : M unit :=
  match module_body environ with
  | Ok cfg => main cfg
  | Raise e => raise e
  end.

End CryptoEtfSync.

(** ** [crypto_sync.py] *)

Module CryptoSync.
Import Py World.

Record settings : Type := {
  NOTION_TOKEN : string;
  CRYPTO_DB_ID : string;
  ETF_DB_ID : string;
}.

Definition module_body (environ : gmap string string) : result settings :=
  token ← CryptoEtfSync.environ_item environ "NOTION_TOKEN";
  crypto_db ← CryptoEtfSync.environ_item environ "NOTION_CRYPTO_DB_ID";
  etf_db ← CryptoEtfSync.environ_item environ "NOTION_ETF_DB_ID";
  mret {| NOTION_TOKEN := token; CRYPTO_DB_ID := crypto_db; ETF_DB_ID := etf_db |}.

Definition str_dict (d : list (string * string)) : value :=
  VDict (prod_map id VStr <$> d).

Section Script.
Context `{Builtins} (cfg : settings).

Definition VS_CURRENCY : string := "aud".

Definition COINS : list (string * string) :=
  [("Bitcoin", "bitcoin"); ("WLFI", "world-liberty-financial")].

Definition NOTION_HEADERS : list (string * string) :=
  [("Authorization", "Bearer " +:+ NOTION_TOKEN cfg);
   ("Notion-Version", "2022-06-28");
   ("Content-Type", "application/json")].

(** The global namespace of the module once its body has run: the names its
    imports, assignments and function definitions bind. *)
Definition module_globals : gmap string value :=
  list_to_map
    [("os", VObject "module os");
     ("time", VObject "module time");
     ("requests", VObject "module requests");
     ("datetime", VObject "class datetime.datetime");
     ("timezone", VObject "class datetime.timezone");
     ("NOTION_TOKEN", VStr (NOTION_TOKEN cfg));
     ("CRYPTO_DB_ID", VStr (CRYPTO_DB_ID cfg));
     ("ETF_DB_ID", VStr (ETF_DB_ID cfg));
     ("VS_CURRENCY", VStr VS_CURRENCY);
     ("COINS", str_dict COINS);
     ("NOTION_HEADERS", str_dict NOTION_HEADERS);
     ("coingecko_get_prices", VObject "function coingecko_get_prices");
     ("notion_query_page_id_by_name", VObject "function notion_query_page_id_by_name");
     ("notion_get_database_properties",
      VObject "function notion_get_database_properties");
     ("notion_update_price", VObject "function notion_update_price");
     ("main", VObject "function main");
     ("__name__", VStr "__main__");
     ("__doc__", VNone);
     ("__package__", VNone);
     ("__loader__", VObject "SourceFileLoader");
     ("__spec__", VNone);
     ("__file__", VObject "path of the script");
     ("__builtins__", VObject "module builtins")].

(** The names of the built-in namespace of the interpreter (functions,
    constants and exception classes of Python 3). *)
Definition builtin_names : list string :=
  ["abs"; "aiter"; "all"; "anext"; "any"; "ascii"; "bin"; "bool"; "breakpoint";
   "bytearray"; "bytes"; "callable"; "chr"; "classmethod"; "compile"; "complex";
   "copyright"; "credits"; "delattr"; "dict"; "dir"; "divmod"; "enumerate"; "eval";
   "exec"; "exit"; "filter"; "float"; "format"; "frozenset"; "getattr"; "globals";
   "hasattr"; "hash"; "help"; "hex"; "id"; "input"; "int"; "isinstance";
   "issubclass"; "iter"; "len"; "license"; "list"; "locals"; "map"; "max";
   "memoryview"; "min"; "next"; "object"; "oct"; "open"; "ord"; "pow"; "print";
   "property"; "quit"; "range"; "repr"; "reversed"; "round"; "set"; "setattr";
   "slice"; "sorted"; "staticmethod"; "str"; "sum"; "super"; "tuple"; "type";
   "vars"; "zip"; "__import__"; "__build_class__"; "__debug__";
   "None"; "True"; "False"; "Ellipsis"; "NotImplemented";
   "BaseException"; "BaseExceptionGroup"; "Exception"; "ExceptionGroup";
   "ArithmeticError"; "AssertionError"; "AttributeError"; "BlockingIOError";
   "BrokenPipeError"; "BufferError"; "BytesWarning"; "ChildProcessError";
   "ConnectionAbortedError"; "ConnectionError"; "ConnectionRefusedError";
   "ConnectionResetError"; "DeprecationWarning"; "EOFError"; "EncodingWarning";
   "EnvironmentError"; "FileExistsError"; "FileNotFoundError";
   "FloatingPointError"; "FutureWarning"; "GeneratorExit"; "IOError";
   "ImportError"; "ImportWarning"; "IndentationError"; "IndexError";
   "InterruptedError"; "IsADirectoryError"; "KeyError"; "KeyboardInterrupt";
   "LookupError"; "MemoryError"; "ModuleNotFoundError"; "NameError";
   "NotADirectoryError"; "NotImplementedError"; "OSError"; "OverflowError";
   "PendingDeprecationWarning"; "PermissionError"; "ProcessLookupError";
   "RecursionError"; "ReferenceError"; "ResourceWarning"; "RuntimeError";
   "RuntimeWarning"; "StopAsyncIteration"; "StopIteration"; "SyntaxError";
   "SyntaxWarning"; "SystemError"; "SystemExit"; "TabError"; "TimeoutError";
   "TypeError"; "UnboundLocalError"; "UnicodeDecodeError"; "UnicodeEncodeError";
   "UnicodeError"; "UnicodeTranslateError"; "UnicodeWarning"; "UserWarning";
   "ValueError"; "Warning"; "ZeroDivisionError"].

(** Reading a global name inside a function: the module namespace, then the
    built-in one; a name bound in neither raises. *)
Definition load_global (name : string) : M value :=
  match module_globals !! name with
  | Some v => mret v
  | None =>
      if bool_decide (name ∈ builtin_names)
      then mret (VObject ("built-in " +:+ name))
      else raise (NameError name)
  end.

Definition coingecko_get_prices : list string -> string -> M value :=
  CoinGecko.coingecko_get_prices "notion-crypto-sync/1.0"
    "CoinGecko rate limited too many times (429). Try lower frequency.".

Definition notion_query_page_id_by_name (name : string) : M value :=
  NOTION_DATABASE_ID ← load_global "NOTION_DATABASE_ID";
  let url := "https://api.notion.com/v1/databases/" +:+ format_value NOTION_DATABASE_ID
             +:+ "/query" in
  let payload :=
    VDict [("filter", VDict [("property", VStr "Name");
                             ("title", VDict [("equals", VStr name)])])] in
  r ← requests_post url NOTION_HEADERS payload 20;
  raise_for_status r;;
  body ← response_json r;
  results ← lift (py_get body "results" (VList []));
  if negb (truthy results) then
    raise (RuntimeError ("Notion 中找不到 Name == " +:+ CryptoEtfSync.dquote +:+ name
                         +:+ CryptoEtfSync.dquote +:+ " 的行（注意大小写/空格）"))
  else
    first ← lift (py_index results 0);
    lift (py_item first "id").

Definition notion_get_database_properties : M value :=
  NOTION_DATABASE_ID ← load_global "NOTION_DATABASE_ID";
  let url := "https://api.notion.com/v1/databases/" +:+ format_value NOTION_DATABASE_ID in
  r ← requests_get url [] NOTION_HEADERS 20;
  raise_for_status r;;
  body ← response_json r;
  lift (py_get body "properties" (VDict [])).

Definition notion_update_price (page_id : value) (price : float)
    (has_last_updated : bool) : M unit :=
  let url := "https://api.notion.com/v1/pages/" +:+ format_value page_id in
  let props := [("Current Price", VDict [("number", VFloat price)])] in
  props ←
    (if has_last_updated then
       now ← datetime_now_utc;
       mret (dict_set "Last Updated"
               (VDict [("date", VDict [("start", VStr (isoformat now))])]) props)
     else mret props);
  let payload := VDict [("properties", VDict props)] in
  r ← requests_patch url NOTION_HEADERS payload 20;
  raise_for_status r.

(** The properties [notion_update_price] puts in its payload, with the
    instant of the update when it stamps it, and the request it sends. *)
Definition update_properties (price : float) (stamp : option datetime)
  : list (string * value) :=
  ("Current Price", VDict [("number", VFloat price)])
  :: from_option (fun now => [("Last Updated", date_field now)]) [] stamp.

Definition update_request (page_id : value) (props : list (string * value)) : request :=
  {| method := PATCH;
     url := "https://api.notion.com/v1/pages/" +:+ format_value page_id;
     params := []; headers := NOTION_HEADERS;
     json := Some (VDict [("properties", VDict props)]);
     timeout := 20 |}.

(** The body of the loop of [main], for one entry of [COINS]. *)
Definition main_body (prices : value) (has_last_updated : bool)
    (item : string * string) : M unit :=
  let '(notion_name, cg_id) := item in
  quotes ← lift (py_item prices cg_id);
  quote ← lift (py_item quotes VS_CURRENCY);
  price ← lift (py_float quote);
  page_id ← notion_query_page_id_by_name notion_name;
  notion_update_price page_id price has_last_updated;;
  print ("✅ Updated " +:+ notion_name +:+ ": " +:+ py_str (VFloat price)
         +:+ " " +:+ str_upper VS_CURRENCY).

Definition main : M unit :=
  db_props ← notion_get_database_properties;
  has_last_updated ← lift (py_in "Last Updated" db_props);
  print ("[Notion] Last Updated:" +:+ " "
         +:+ (if has_last_updated : bool then "YES" else "NO (skip)"));;
  prices ← coingecko_get_prices (COINS.*2) VS_CURRENCY;
  for_each COINS (main_body prices has_last_updated);;
  print "🎉 Done.".
End Script.

(** Running the script: the module body, then [main]. *)
Definition run `{Builtins} (environ : gmap string string) : M unit :=
  match module_body environ with
  | Ok cfg => main cfg
  | Raise e => raise e
  end.

End CryptoSync.

(** ** Sample inputs *)

Module Samples.
Import Py World.

(** Built-ins for runs that format no value and parse no text. *)
Definition plain_builtins : Builtins :=
  {| py_str := fun _ => "<value>"; float_of_str := fun _ => None |}.

Definition answer (status : Z) (body : option value) : reply :=
  Answered {| status_code := status; text := EmptyString; json_body := body |}.

Definition noon : datetime :=
  {| year := 2025; month := 6; day := 30; hour := 12; minute := 0; second := 7;
     microsecond := 250 |}.

(** A world at the start of a run, with the replies given. *)
Definition fresh (answers : nat -> reply) : world :=
  {| replies := answers; sent := 0; instants := fun _ => noon; clock_reads := 0;
     log := [] |}.

(** [{"bitcoin": {"aud": 97250.5}}] *)
Definition bitcoin_quote : value :=
  VDict [("bitcoin", VDict [("aud", VFloat (S754_finite false 6683003472314368 (-36)))])].

(** Two rate-limited attempts, then the quote. *)
Definition limited_twice : world :=
  fresh (fun n => match n with
                  | 0%nat | 1%nat => answer 429 None
                  | _ => answer 200 (Some bitcoin_quote)
                  end).

(** A feed that is rate limited for good, and one that is broken. *)
Definition always_limited : world := fresh (fun _ => answer 429 None).

Definition limited_then_broken : world :=
  fresh (fun n => match n with
                  | 0%nat => answer 429 None
                  | _ => answer 503 None
                  end).

Definition settings : CryptoEtfSync.settings :=
  {| CryptoEtfSync.NOTION_TOKEN := "secret";
     CryptoEtfSync.CRYPTO_DB_ID := "crypto-db";
     CryptoEtfSync.ETF_DB_ID := "etf-db" |}.

Definition properties : value :=
  VDict [("Name", VDict [("type", VStr "title")]);
         ("Current Price", VDict [("type", VStr "number")]);
         ("Last Updated", VDict [("type", VStr "date")])].

Definition schema : value :=
  VDict [("object", VStr "database"); ("properties", properties)].

(** A schema without the price column. *)
Definition properties_without_price : value :=
  VDict [("Name", VDict [("type", VStr "title")]);
         ("Last Updated", VDict [("type", VStr "date")])].

(** A row of the store, as its fields. *)
Definition bitcoin_row : list (string * value) :=
  [("Name", VStr "Bitcoin"); ("Current Price", VInt 1); ("Holdings", VInt 3)].

(** The store answers the schema read; the feed then quotes bitcoin in US
    dollars only. *)
Definition quoted_in_usd : world :=
  fresh (fun n => match n with
                  | 0%nat => answer 200 (Some schema)
                  | _ => answer 200 (Some (VDict [("bitcoin", VDict [("usd", VInt 64000)])]))
                  end).

(** The quote feed on a symbol it does not know: status 404 and a body whose
    [error] member tells why. *)
Definition symbol_not_found : value :=
  VDict [("chart",
          VDict [("result", VNone);
                 ("error", VDict [("code", VStr "Not Found");
                                  ("description",
                                   VStr "No data found, symbol may be delisted")])])].

Definition unknown_symbol : world := fresh (fun _ => answer 404 (Some symbol_not_found)).

(** The same body under status 200. *)
Definition unknown_symbol_200 : world := fresh (fun _ => answer 200 (Some symbol_not_found)).

(** 42.0 *)
Definition forty_two : float := S754_finite false 5910974510923776 (-47).

(** A quote under status 200 whose [error] member is an empty object, and a
    body whose [chart] member is null. *)
Definition empty_error : world :=
  fresh (fun _ =>
    answer 200
      (Some (VDict [("chart",
                     VDict [("result",
                             VList [VDict [("meta",
                                            VDict [("regularMarketPrice",
                                                    VFloat forty_two)])]]);
                            ("error", VDict [])])]))).

Definition null_chart : world :=
  fresh (fun _ => answer 200 (Some (VDict [("chart", VNone)]))).

(** A quote whose live price is 0.0 and whose previous close is 42.0. *)
Definition zero_live_price : value :=
  VDict [("chart",
          VDict [("result",
                  VList [VDict [("meta",
                                 VDict [("symbol", VStr "IVV.AX");
                                        ("regularMarketPrice", VFloat (S754_zero false));
                                        ("previousClose", VFloat forty_two)])]]);
                 ("error", VNone)])].

Definition halted : world := fresh (fun _ => answer 200 (Some zero_live_price)).

(** The store finds no row for the title. *)
Definition no_rows : world :=
  fresh (fun _ => answer 200 (Some (VDict [("object", VStr "list"); ("results", VList [])]))).

(** An environment with the three settings, and with a variable named like
    the global that [crypto_sync.py] reads. *)
Definition environ : gmap string string :=
  list_to_map [("NOTION_TOKEN", "secret"); ("NOTION_CRYPTO_DB_ID", "crypto-db");
               ("NOTION_ETF_DB_ID", "etf-db"); ("NOTION_DATABASE_ID", "crypto-db")].

Definition store_up : world := fresh (fun _ => answer 200 (Some schema)).

(** The feed is rate limited once, then does not answer. *)
Definition limited_then_down : world :=
  fresh (fun n => match n with
                  | 0%nat => answer 429 None
                  | _ => Unanswered
                  end).

(** A quote with no live price and a previous close of 42.0. *)
Definition closed_market : world :=
  fresh (fun _ =>
    answer 200
      (Some (VDict [("chart",
                     VDict [("result",
                             VList [VDict [("meta",
                                            VDict [("previousClose",
                                                    VFloat forty_two)])]]);
                            ("error", VNone)])]))).

(** A schema reply without [properties]. *)
Definition bare_schema : world :=
  fresh (fun _ => answer 200 (Some (VDict [("object", VStr "database")]))).

(** The store answers the query with a row that has no [id]. *)
Definition row_without_id : world :=
  fresh (fun _ =>
    answer 200 (Some (VDict [("results", VList [VDict [("object", VStr "page")]])]))).

(** The store refuses the update. *)
Definition update_refused : world :=
  fresh (fun _ =>
    Answered {| status_code := 400; text := "validation_error"; json_body := None |}).

(** The store finds the row [page-1] and accepts the update; before that,
    the quote feed gives a live price of 42.0. *)
Definition one_row : value :=
  VDict [("results", VList [VDict [("object", VStr "page"); ("id", VStr "page-1")]])].

Definition live_quote : value :=
  VDict [("chart",
          VDict [("result",
                  VList [VDict [("meta", VDict [("regularMarketPrice", VFloat forty_two)])]]);
                 ("error", VNone)])].

Definition etf_updated : world :=
  fresh (fun n => match n with
                  | 0%nat => answer 200 (Some live_quote)
                  | 1%nat => answer 200 (Some one_row)
                  | _ => answer 200 (Some (VDict []))
                  end).

Definition crypto_updated : world :=
  fresh (fun n => match n with
                  | 0%nat => answer 200 (Some one_row)
                  | _ => answer 200 (Some (VDict []))
                  end).

(** The quote arrives and the row is found, for a store whose schema has no
    price column. *)
Definition lookups_only : world :=
  fresh (fun n => match n with
                  | 0%nat => answer 200 (Some live_quote)
                  | _ => answer 200 (Some one_row)
                  end).

(** An environment without the identifier of the ETF store. *)
Definition environ_without_etf_db : gmap string string :=
  list_to_map [("NOTION_TOKEN", "secret"); ("NOTION_CRYPTO_DB_ID", "crypto-db")].

End Samples.

(** * Properties *)

(** ** Texts: decimal numbers and timestamps *)

Module PyFacts.
Import Py.

Lemma matches_app p1 : forall p2 s1 s2,
  matches p1 s1 = true -> matches p2 s2 = true ->
  matches (p1 ++ p2) (s1 +:+ s2) = true.
Proof.
  induction p1 as [|c p1 IH]; intros p2 s1 s2 H1 H2; destruct s1 as [|a s1];
    try discriminate; [done|].
  simpl in H1. apply andb_true_iff in H1 as [Ha Hs].
  change (in_class c a && matches (p1 ++ p2) (s1 +:+ s2) = true).
  rewrite Ha. simpl. by apply IH.
Qed.

Lemma matches_literal s : matches (literal s) s = true.
Proof.
  induction s as [|a s IH]; [done|].
  unfold literal in *. simpl. by rewrite Ascii.eqb_refl.
Qed.

Lemma is_digit_digit (d : N) : (d < 10)%N -> is_digit (digit d) = true.
Proof.
  intros Hd. destruct d as [|p]; [done|].
  do 4 (destruct p as [p|p|]; try done; try lia).
Qed.

Lemma zeros_digits k : matches (replicate k Digit) (zeros k) = true.
Proof. induction k as [|k IH]; [done|]. simpl. exact IH. Qed.

Lemma append_cons a s1 s2 : String a s1 +:+ s2 = String a (s1 +:+ s2).
Proof. reflexivity. Qed.

Lemma append_nil_r s : s +:+ EmptyString = s.
Proof. induction s as [|a s IH]; [done|]. by rewrite append_cons, IH. Qed.

Lemma length_append s1 s2 :
  String.length (s1 +:+ s2) = (String.length s1 + String.length s2)%nat.
Proof. induction s1 as [|a s1 IH]; [done|]. rewrite append_cons. simpl. by rewrite IH. Qed.

Lemma append_assoc s1 s2 s3 : (s1 +:+ s2) +:+ s3 = s1 +:+ (s2 +:+ s3).
Proof. induction s1 as [|a s1 IH]; [done|]. by rewrite !append_cons, IH. Qed.

Lemma decimal_fuel_step fuel n acc :
  decimal_fuel (S fuel) n acc
  = if (n <? 10)%N then String (digit (n mod 10)) acc
    else decimal_fuel fuel (n / 10) (String (digit (n mod 10)) acc).
Proof. reflexivity. Qed.

(** With enough fuel the digits of [n] are put in front of the accumulator:
    at least one, and no more than any [k] with [n < 10 ^ k]. *)
Lemma decimal_fuel_digits fuel : forall n acc,
  (n < 10 ^ N.of_nat (S fuel))%N ->
  exists body,
    decimal_fuel (S fuel) n acc = body +:+ acc /\
    matches (replicate (String.length body) Digit) body = true /\
    forall k, (n < 10 ^ N.of_nat (S k))%N -> (String.length body <= S k)%nat.
Proof.
  induction fuel as [|fuel IH]; intros n acc Hn.
  - exists (String (digit (n mod 10)) EmptyString).
    rewrite decimal_fuel_step.
    destruct (N.ltb_spec n 10) as [_|Hge]; [|simpl in Hn; lia].
    split; [done|]. split.
    + simpl. rewrite is_digit_digit; [done|]. by apply N.mod_lt.
    + intros k _. simpl. lia.
  - rewrite decimal_fuel_step. destruct (N.ltb_spec n 10) as [Hlt|Hge].
    + exists (String (digit (n mod 10)) EmptyString).
      split; [done|]. split.
      * simpl. rewrite is_digit_digit; [done|]. by apply N.mod_lt.
      * intros k _. simpl. lia.
    + destruct (IH (n / 10)%N (String (digit (n mod 10)) acc)) as (body & Hrun & Hdigits & Hlen).
      { apply N.Div0.div_lt_upper_bound.
        rewrite <- N.pow_succ_r'. by rewrite <- Nat2N.inj_succ. }
      exists (body +:+ String (digit (n mod 10)) EmptyString).
      split; [by rewrite Hrun, append_assoc|]. split.
      * rewrite length_append. simpl String.length.
        rewrite replicate_add. apply matches_app; [done|].
        simpl. rewrite is_digit_digit; [done|]. by apply N.mod_lt.
      * intros [|k] Hk; [simpl in Hk; lia|].
        rewrite length_append. simpl String.length.
        assert (String.length body <= S k)%nat; [|lia].
        apply Hlen. apply N.Div0.div_lt_upper_bound.
        rewrite <- N.pow_succ_r'. by rewrite <- Nat2N.inj_succ.
Qed.

Lemma decimal_fuel_enough n : (n < 10 ^ N.of_nat (S (N.to_nat (N.log2 n))))%N.
Proof.
  destruct (N.eq_dec n 0%N) as [->|Hn]; [done|].
  rewrite Nat2N.inj_succ, N2Nat.id.
  apply N.lt_le_trans with (2 ^ N.succ (N.log2 n))%N.
  - apply N.log2_spec. lia.
  - apply N.pow_le_mono_l. lia.
Qed.

(** A number below [10 ^ w] is printed by ["%0wd"] as exactly [w] digits. *)
Lemma format_d_digits w n :
  (n < 10 ^ N.of_nat (S w))%N ->
  matches (replicate (S w) Digit) (format_d (S w) n) = true.
Proof.
  intros Hn. unfold format_d, decimal.
  destruct (decimal_fuel_digits _ n EmptyString (decimal_fuel_enough n))
    as (body & -> & Hdigits & Hlen).
  specialize (Hlen w Hn).
  rewrite append_nil_r.
  replace (S w) with ((S w - String.length body) + String.length body)%nat at 1 by lia.
  rewrite replicate_add. apply matches_app; [apply zeros_digits|done].
Qed.

(** The text of an aware UTC datetime is ISO 8601 with the offset [+00:00]. *)
Lemma isoformat_utc d : valid_datetime d -> is_iso8601_utc (isoformat d) = true.
Proof.
  intros (Hy & Hmo & Hd & Hh & Hmi & Hs & Hus).
  unfold is_iso8601_utc, isoformat, iso_date_time.
  apply orb_true_iff.
  destruct (N.eqb_spec (microsecond d) 0) as [_|_]; [left|right];
    rewrite <- ?(assoc_L (++)), ?append_assoc;
    repeat first
      [ apply matches_literal
      | apply matches_app;
        [ first [ apply matches_literal | apply format_d_digits; simpl; lia ] | ] ].
Qed.

End PyFacts.

(** ** Stepping through computations *)

Module WorldFacts.
Import Py World.

Lemma bind_ok {A B} (m : M A) (f : A -> M B) w a w' :
  m w = (Ok a, w') -> (m ≫= f) w = f a w'.
Proof. intros Hm. unfold mbind, M_bind. by rewrite Hm. Qed.

Lemma bind_raise {A B} (m : M A) (f : A -> M B) w e w' :
  m w = (Raise e, w') -> (m ≫= f) w = (Raise e, w').
Proof. intros Hm. unfold mbind, M_bind. by rewrite Hm. Qed.

Lemma lift_ok {A} (r : result A) a w : r = Ok a -> lift r w = (Ok a, w).
Proof. by intros ->. Qed.

Lemma later_nothing w : later w 0 0 [] = w.
Proof.
  destruct w as [rs n ins c l]. unfold later; simpl.
  by rewrite !Nat.add_0_r, app_nil_r.
Qed.

Lemma later_later w n1 c1 e1 n2 c2 e2 :
  later (later w n1 c1 e1) n2 c2 e2 = later w (n1 + n2) (c1 + c2) (e1 ++ e2).
Proof.
  unfold later; simpl. by rewrite !Nat.add_assoc, app_assoc.
Qed.

Lemma requests_send_answered rq w r :
  replies w (sent w) = Answered r ->
  requests_send rq w = (Ok r, later w 1 0 [Requested rq]).
Proof.
  intros Hr. unfold requests_send, later. rewrite Hr.
  by rewrite Nat.add_1_r, Nat.add_0_r.
Qed.

Lemma requests_send_unanswered rq w :
  replies w (sent w) = Unanswered ->
  requests_send rq w = (Raise RequestException, later w 1 0 [Requested rq]).
Proof.
  intros Hr. unfold requests_send, later. rewrite Hr.
  by rewrite Nat.add_1_r, Nat.add_0_r.
Qed.

Lemma requests_post_sends url headers json timeout :
  json_dumps_error json = None ->
  requests_post url headers json timeout =
  requests_send {| method := POST; url := url; params := []; headers := headers;
                   json := Some json; timeout := timeout |}.
Proof. intros Hjson. unfold requests_post, encode_json. by rewrite Hjson. Qed.

Lemma requests_patch_sends url headers json timeout :
  json_dumps_error json = None ->
  requests_patch url headers json timeout =
  requests_send {| method := PATCH; url := url; params := []; headers := headers;
                   json := Some json; timeout := timeout |}.
Proof. intros Hjson. unfold requests_patch, encode_json. by rewrite Hjson. Qed.

Lemma requests_patch_refused url headers json timeout w :
  json_dumps_error json = Some ValueError ->
  requests_patch url headers json timeout w = (Raise InvalidJSONError, w).
Proof. intros Hjson. unfold requests_patch, encode_json. by rewrite Hjson. Qed.

Lemma print_later line w : print line w = (Ok (), later w 0 0 [Printed line]).
Proof. unfold print, record, later. by rewrite !Nat.add_0_r. Qed.

Lemma time_sleep_later seconds w :
  0 <= seconds -> time_sleep seconds w = (Ok (), later w 0 0 [Slept seconds]).
Proof.
  intros Hs. unfold time_sleep, record, later.
  destruct (Z.ltb_spec seconds 0); [lia|]. by rewrite !Nat.add_0_r.
Qed.

Lemma datetime_now_later w :
  datetime_now_utc w = (Ok (instants w (clock_reads w)), later w 0 1 []).
Proof.
  unfold datetime_now_utc, later.
  by rewrite Nat.add_0_r, Nat.add_1_r, app_nil_r.
Qed.

Lemma raise_for_status_ok r w :
  error_status (status_code r) = false -> raise_for_status r w = (Ok (), w).
Proof. intros Hs. unfold raise_for_status. by rewrite Hs. Qed.

Lemma raise_for_status_error r w :
  error_status (status_code r) = true ->
  raise_for_status r w = (Raise (HTTPError (status_code r)), w).
Proof. intros Hs. unfold raise_for_status. by rewrite Hs. Qed.

Lemma requests_of_app e1 e2 : requests_of (e1 ++ e2) = requests_of e1 ++ requests_of e2.
Proof. apply omap_app. Qed.

Lemma sleeps_of_app e1 e2 : sleeps_of (e1 ++ e2) = sleeps_of e1 ++ sleeps_of e2.
Proof. apply omap_app. Qed.

Lemma for_each_app {A} (xs ys : list A) (body : A -> M unit) w :
  for_each (xs ++ ys) body w = (for_each xs body ;; for_each ys body) w.
Proof.
  revert w. induction xs as [|x xs IH]; intros w; [done|].
  cbn [app for_each]. unfold mbind, M_bind.
  destruct (body x w) as [[[]|e] w1]; [|done]. apply IH.
Qed.

End WorldFacts.

(** ** The retry loop *)

Module CoinGeckoFacts.
Import Py World WorldFacts CoinGecko.

Section Fetch.
Variables (user_agent rate_limited_message : string).
Variables (coin_ids : list string) (vs : string).

Let loop := attempt_loop user_agent rate_limited_message coin_ids vs.
Let rounds (attempts : list Z) : list event :=
  attempts ≫= rate_limited_attempt user_agent coin_ids vs.

(** One attempt answered by 429 costs a request, a notice and a wait, and
    leaves the rest of the attempts to run. *)
Lemma attempt_rate_limited attempt rest w :
  0 <= attempt ->
  answered_with w 0 429 ->
  loop (attempt :: rest) w
  = loop rest (later w 1 0 (rate_limited_attempt user_agent coin_ids vs attempt)).
Proof.
  intros Hattempt (r & Hr & Hs). rewrite Nat.add_0_r in Hr.
  unfold loop; simpl. unfold requests_get.
  rewrite (bind_ok _ _ _ _ _ (requests_send_answered _ _ _ Hr)).
  rewrite Hs; simpl.
  rewrite (bind_ok _ _ _ _ _ (print_later _ _)).
  assert (Hwait : 0 <= 2 * (attempt + 1)) by lia.
  rewrite (bind_ok _ _ _ _ _ (time_sleep_later _ _ Hwait)).
  by rewrite !later_later.
Qed.

Lemma answered_with_later w n k events status :
  answered_with w (n + k) status ->
  answered_with (later w n 0 events) k status.
Proof.
  intros (r & Hr & Hs). exists r. split; [|done].
  simpl. by rewrite <- Nat.add_assoc.
Qed.

(** While the replies are 429 the loop moves on to the next attempt. *)
Lemma attempts_rate_limited k : forall a n w,
  (forall i, (i < k)%nat -> answered_with w i 429) ->
  loop (Z.of_nat <$> seq a (k + n)) w
  = loop (Z.of_nat <$> seq (a + k) n)
      (later w k 0 (rounds (Z.of_nat <$> seq a k))).
Proof.
  induction k as [|k IH]; intros a n w Hlimited.
  - by rewrite Nat.add_0_r, later_nothing.
  - cbn [Nat.add seq fmap list_fmap].
    rewrite attempt_rate_limited; [|lia|apply Hlimited; lia].
    rewrite IH.
    + rewrite later_later. subst rounds. cbn [mbind list_bind].
      by rewrite Nat.add_succ_r, Nat.add_0_r.
    + intros i Hi. apply answered_with_later.
      apply (Hlimited (S i)). lia.
Qed.

(** A reply of another status ends the loop on the spot: an error status
    raises, any other returns the decoded body. *)
Lemma attempt_error attempt rest w r :
  replies w (sent w) = Answered r ->
  status_code r <> 429 ->
  error_status (status_code r) = true ->
  loop (attempt :: rest) w
  = (Raise (HTTPError (status_code r)),
     later w 1 0 [Requested (price_request user_agent coin_ids vs)]).
Proof.
  intros Hr Hs Herr. unfold loop; simpl. unfold requests_get.
  rewrite (bind_ok _ _ _ _ _ (requests_send_answered _ _ _ Hr)).
  destruct (Z.eqb_spec (status_code r) 429); [done|].
  by rewrite (bind_raise _ _ _ _ _ (raise_for_status_error _ _ Herr)).
Qed.

Lemma attempt_success attempt rest w r :
  replies w (sent w) = Answered r ->
  error_status (status_code r) = false ->
  loop (attempt :: rest) w
  = (match json_body r with Some v => Ok v | None => Raise JSONDecodeError end,
     later w 1 0 [Requested (price_request user_agent coin_ids vs)]).
Proof.
  intros Hr Hok. unfold loop; simpl. unfold requests_get.
  rewrite (bind_ok _ _ _ _ _ (requests_send_answered _ _ _ Hr)).
  destruct (Z.eqb_spec (status_code r) 429) as [Heq|_].
  { rewrite Heq in Hok. discriminate. }
  rewrite (bind_ok _ _ _ _ _ (raise_for_status_ok _ _ Hok)).
  unfold response_json. by destruct (json_body r).
Qed.

Lemma requests_of_rounds attempts :
  requests_of (rounds attempts)
  = replicate (length attempts) (price_request user_agent coin_ids vs).
Proof.
  induction attempts as [|a rest IH]; [done|].
  subst rounds. cbn [mbind list_bind]. rewrite requests_of_app, IH. done.
Qed.

Lemma sleeps_of_rounds attempts :
  sleeps_of (rounds attempts) = (fun attempt => 2 * (attempt + 1)) <$> attempts.
Proof.
  induction attempts as [|a rest IH]; [done|].
  subst rounds. cbn [mbind list_bind]. rewrite sleeps_of_app, IH. done.
Qed.
End Fetch.

(** After [k] attempts answered by 429, a reply with a success status and a
    JSON body makes the operation return that body. *)
Lemma coingecko_returns_body ua msg ids vs w k r payload :
  (k < 6)%nat ->
  (forall i, (i < k)%nat -> answered_with w i 429) ->
  replies w (sent w + k)%nat = Answered r ->
  error_status (status_code r) = false ->
  json_body r = Some payload ->
  coingecko_get_prices ua msg ids vs w
  = (Ok payload,
     later w (S k) 0 ((range k ≫= rate_limited_attempt ua ids vs)
                      ++ [Requested (price_request ua ids vs)])).
Proof.
  intros Hk Hlimited Hr Hok Hbody.
  unfold coingecko_get_prices, range.
  replace 6%nat with (k + S (5 - k))%nat by lia.
  rewrite attempts_rate_limited by done.
  cbn [seq fmap list_fmap].
  rewrite (attempt_success _ _ _ _ _ _ _ r); [|done|done].
  rewrite Hbody, later_later. do 2 f_equal. lia.
Qed.

End CoinGeckoFacts.

Module CoinGeckoClaims.
Import Py World WorldFacts CoinGecko CoinGeckoFacts.

Lemma backoff_increasing k : forall a,
  StronglySorted Z.lt ((fun attempt => 2 * (attempt + 1)) <$> (Z.of_nat <$> seq a k)).
Proof.
  induction k as [|k IH]; intros a; cbn [seq fmap list_fmap]; constructor.
  - apply IH.
  - rewrite <- list_fmap_compose. apply Forall_fmap, Forall_seq.
    intros j Hj. simpl. lia.
Qed.

(** The loop never sends more requests than it has attempts, and every
    request it sends is the same one. *)
Lemma attempt_loop_bounded ua msg ids vs attempts : forall w,
  exists n events,
    (attempt_loop ua msg ids vs attempts w).2 = later w n 0 events /\
    (n <= length attempts)%nat /\
    requests_of events = replicate n (price_request ua ids vs).
Proof.
  induction attempts as [|attempt rest IH]; intros w.
  - exists 0%nat, []. split; [|done]. simpl. by rewrite later_nothing.
  - cbn [attempt_loop]. unfold requests_get.
    destruct (replies w (sent w)) as [r|] eqn:Hr.
    + rewrite (bind_ok _ _ _ _ _ (requests_send_answered _ _ _ Hr)).
      destruct (status_code r =? 429) eqn:Hs.
      * rewrite (bind_ok _ _ _ _ _ (print_later _ _)), later_later.
        unfold mbind at 1, M_bind at 1.
        unfold time_sleep.
        destruct (2 * (attempt + 1) <? 0).
        -- exists 1%nat. eexists. split; [reflexivity|]. split; [simpl; lia|done].
        -- unfold record. cbn [later replies sent instants clock_reads log].
           match goal with |- context [attempt_loop _ _ _ _ rest ?w1] =>
             destruct (IH w1) as (n & events & Hrun & Hn & Hreqs); rewrite Hrun end.
           exists (S n). eexists. split.
           { unfold later; simpl. f_equal; [lia|lia|].
             rewrite <- !app_assoc. reflexivity. }
           split; [simpl; lia|].
           change (price_request ua ids vs :: requests_of events
                   = price_request ua ids vs :: replicate n (price_request ua ids vs)).
           by rewrite Hreqs.
      * exists 1%nat, [Requested (price_request ua ids vs)].
        split; [|split; [simpl; lia|reflexivity]].
        unfold raise_for_status.
        destruct (error_status (status_code r)); [done|].
        unfold mbind, M_bind, mret, M_ret, response_json.
        by destruct (json_body r).
    + rewrite (bind_raise _ _ _ _ _ (requests_send_unanswered _ _ Hr)).
      exists 1%nat. eexists. split; [reflexivity|]. split; [simpl; lia|done].
Qed.

(** C1. While the price feed answers 429, [coingecko_get_prices] sends the
    same request again: after the rate-limited attempt of index [i] it waits
    [2 * (i + 1)] seconds, so the waits 2, 4, 6, ... grow strictly; when a
    reply with a success status arrives at one of the six attempts, its
    decoded body is the result. The statement holds for the function of both
    scripts, which are the instances of [CoinGecko.coingecko_get_prices]. *)
Theorem coingecko_retries_then_returns ua msg ids vs w k r payload :
  (k < 6)%nat ->
  (forall i, (i < k)%nat -> answered_with w i 429) ->
  replies w (sent w + k)%nat = Answered r ->
  error_status (status_code r) = false ->
  json_body r = Some payload ->
  let events :=
    (range k ≫= rate_limited_attempt ua ids vs) ++ [Requested (price_request ua ids vs)] in
  coingecko_get_prices ua msg ids vs w = (Ok payload, later w (S k) 0 events) /\
  requests_of events = replicate (S k) (price_request ua ids vs) /\
  sleeps_of events = (fun attempt => 2 * (attempt + 1)) <$> range k /\
  StronglySorted Z.lt (sleeps_of events).
Proof.
  intros Hk Hlimited Hr Hok Hbody events.
  assert (Hsleeps : sleeps_of events = (fun attempt => 2 * (attempt + 1)) <$> range k).
  { subst events. rewrite sleeps_of_app, sleeps_of_rounds. simpl. by rewrite app_nil_r. }
  split; [|split; [|split]]; [| |done|].
  - by apply coingecko_returns_body with r.
  - subst events. rewrite requests_of_app, requests_of_rounds. unfold range.
    rewrite length_fmap, length_seq. simpl.
    by rewrite <- replicate_cons_app.
  - rewrite Hsleeps. apply backoff_increasing.
Qed.

Lemma coingecko_retries_then_returns_witness :
  exists w',
    CryptoEtfSync.coingecko_get_prices ["bitcoin"; "world-liberty-financial"] "aud"
      Samples.limited_twice = (Ok Samples.bitcoin_quote, w') /\
    length (requests_of (log w')) = 3%nat /\
    sleeps_of (log w') = [2; 4].
Proof.
  destruct (coingecko_retries_then_returns "notion-sync/1.0"
              "CoinGecko rate limited too many times (429)."
              ["bitcoin"; "world-liberty-financial"] "aud" Samples.limited_twice 2
              {| status_code := 200; text := EmptyString;
                 json_body := Some Samples.bitcoin_quote |} Samples.bitcoin_quote)
    as (Hrun & _); try reflexivity.
  - lia.
  - intros [|[|i]] Hi; [eexists; split; reflexivity ..|lia].
  - eexists. split; [exact Hrun|]. split; reflexivity.
Defined.

(** C2. When all six attempts are answered by 429, [coingecko_get_prices]
    raises its own [RuntimeError], which no status check raises, after exactly
    six requests; whatever the replies are it never sends a seventh. A reply
    with an error status other than 429 raises the HTTP error at once: the
    request that got it is the last one. *)
Theorem coingecko_gives_up_or_fails_fast ua msg ids vs w :
  (exists n events,
     (coingecko_get_prices ua msg ids vs w).2 = later w n 0 events /\
     (n <= 6)%nat /\
     requests_of events = replicate n (price_request ua ids vs)) /\
  ((forall i, (i < 6)%nat -> answered_with w i 429) ->
   let events := range 6 ≫= rate_limited_attempt ua ids vs in
   coingecko_get_prices ua msg ids vs w = (Raise (RuntimeError msg), later w 6 0 events) /\
   requests_of events = replicate 6 (price_request ua ids vs) /\
   forall status, RuntimeError msg <> HTTPError status) /\
  (forall k r,
     (k < 6)%nat ->
     (forall i, (i < k)%nat -> answered_with w i 429) ->
     replies w (sent w + k)%nat = Answered r ->
     error_status (status_code r) = true ->
     status_code r <> 429 ->
     let events :=
       (range k ≫= rate_limited_attempt ua ids vs)
       ++ [Requested (price_request ua ids vs)] in
     coingecko_get_prices ua msg ids vs w
     = (Raise (HTTPError (status_code r)), later w (S k) 0 events) /\
     requests_of events = replicate (S k) (price_request ua ids vs)).
Proof.
  split; [|split].
  - apply (attempt_loop_bounded ua msg ids vs (range 6) w).
  - intros Hlimited events. split; [|split; [|done]].
    + unfold coingecko_get_prices, range.
      change 6%nat with (6 + 0)%nat at 1.
      by rewrite attempts_rate_limited.
    + apply requests_of_rounds.
  - intros k r Hk Hlimited Hr Herr Hs events. split.
    + unfold coingecko_get_prices, range.
      replace 6%nat with (k + S (5 - k))%nat by lia.
      rewrite attempts_rate_limited by done.
      cbn [seq fmap list_fmap].
      rewrite (attempt_error _ _ _ _ _ _ _ r); [|done|done|done].
      rewrite later_later. do 2 f_equal. lia.
    + subst events. rewrite requests_of_app, requests_of_rounds. unfold range.
      rewrite length_fmap, length_seq. simpl.
      by rewrite <- replicate_cons_app.
Qed.

Lemma coingecko_gives_up_or_fails_fast_witness :
  (exists w',
     CryptoEtfSync.coingecko_get_prices ["bitcoin"] "aud" Samples.always_limited
     = (Raise (RuntimeError "CoinGecko rate limited too many times (429)."), w') /\
     sent w' = 6%nat) /\
  (exists w',
     CryptoSync.coingecko_get_prices ["bitcoin"] "aud" Samples.limited_then_broken
     = (Raise (HTTPError 503), w') /\
     sent w' = 2%nat).
Proof.
  split.
  - destruct (coingecko_gives_up_or_fails_fast "notion-sync/1.0"
                "CoinGecko rate limited too many times (429)." ["bitcoin"] "aud"
                Samples.always_limited) as (_ & Hgives_up & _).
    destruct Hgives_up as (Hrun & _).
    + intros i _. eexists. split; reflexivity.
    + eexists. split; [exact Hrun|reflexivity].
  - destruct (coingecko_gives_up_or_fails_fast "notion-crypto-sync/1.0"
                "CoinGecko rate limited too many times (429). Try lower frequency."
                ["bitcoin"] "aud" Samples.limited_then_broken) as (_ & _ & Hfails).
    destruct (Hfails 1%nat {| status_code := 503; text := EmptyString;
                              json_body := None |}) as (Hrun & _);
      [lia| |reflexivity|reflexivity|discriminate|].
    + intros [|i] Hi; [eexists; split; reflexivity|lia].
    + eexists. split; [exact Hrun|reflexivity].
Defined.

End CoinGeckoClaims.

(** ** [crypto_etf_sync.py]: prices, rows and updates *)

Module CryptoEtfSyncClaims.
Import Py World WorldFacts CryptoEtfSync.

Section Script.
Context `{Builtins} (cfg : settings).

(** A coin whose quote is missing from the prices stops the loop body
    before it asks the store anything. *)
Lemma sync_crypto_body_missing db_props entries notion_name cg_id w :
  lacks_pair entries cg_id VS_CURRENCY = true ->
  sync_crypto_body cfg db_props (VDict entries) (notion_name, cg_id) w
  = (Raise (RuntimeError ("CoinGecko 返回缺少 " +:+ cg_id +:+ "/" +:+ VS_CURRENCY
                          +:+ ": " +:+ format_value (VDict entries))), w).
Proof.
  unfold lacks_pair, sync_crypto_body, py_in, py_item, lift, mbind, M_bind.
  destruct (dict_lookup cg_id entries) as [[| | | | | |quotes|]|]; try done.
  simpl. intros Hquotes.
  by destruct (dict_lookup VS_CURRENCY quotes).
Qed.

(** C3. [coingecko_get_prices] returns the decoded body of a successful
    reply as it is, whatever pairs it holds. The caller [sync_crypto] checks
    each configured coin: when the loop reaches a coin whose quote in
    [VS_CURRENCY] is missing from the prices, the run ends with a
    [RuntimeError] that names the coin and the currency. *)
Theorem prices_unchecked_by_fetch_checked_by_caller :
  (forall coin_ids vs w k r payload,
     (k < 6)%nat ->
     (forall i, (i < k)%nat -> answered_with w i 429) ->
     replies w (sent w + k)%nat = Answered r ->
     error_status (status_code r) = false ->
     json_body r = Some payload ->
     (coingecko_get_prices coin_ids vs w).1 = Ok payload) /\
  (forall w w1 w2 w3 db_props entries before notion_name cg_id after,
     notion_get_database_properties cfg (CRYPTO_DB_ID cfg)
       (later w 0 0 [Printed "=== Sync Crypto ==="]) = (Ok db_props, w1) ->
     coingecko_get_prices (CRYPTO.*2) VS_CURRENCY w1 = (Ok (VDict entries), w2) ->
     CRYPTO = before ++ (notion_name, cg_id) :: after ->
     for_each before (sync_crypto_body cfg db_props (VDict entries)) w2 = (Ok (), w3) ->
     lacks_pair entries cg_id VS_CURRENCY = true ->
     let missing :=
       RuntimeError ("CoinGecko 返回缺少 " +:+ cg_id +:+ "/" +:+ VS_CURRENCY
                     +:+ ": " +:+ format_value (VDict entries)) in
     sync_crypto cfg w = (Raise missing, w3) /\
     main cfg w = (Raise missing, w3)).
Proof.
  split.
  - intros coin_ids vs w k r payload Hk Hlimited Hr Hok Hbody.
    unfold coingecko_get_prices.
    by rewrite (CoinGeckoFacts.coingecko_returns_body _ _ _ _ w k r payload).
  - intros w w1 w2 w3 db_props entries before notion_name cg_id after
      Hschema Hprices Hcoins Hbefore Hmissing missing.
    assert (Hsync : sync_crypto cfg w = (Raise missing, w3)).
    { unfold sync_crypto.
      rewrite (bind_ok _ _ _ _ _ (print_later _ _)).
      rewrite (bind_ok _ _ _ _ _ Hschema).
      rewrite (bind_ok _ _ _ _ _ Hprices).
      rewrite Hcoins, for_each_app.
      rewrite (bind_ok _ _ _ _ _ Hbefore).
      cbn [for_each].
      by rewrite (bind_raise _ _ _ _ _ (sync_crypto_body_missing _ _ _ _ _ Hmissing)). }
    split; [done|].
    unfold main. by rewrite (bind_raise _ _ _ _ _ Hsync).
Qed.
End Script.

Lemma prices_unchecked_by_fetch_checked_by_caller_witness :
  exists w',
    @main Samples.plain_builtins Samples.settings Samples.quoted_in_usd
    = (Raise (RuntimeError ("CoinGecko 返回缺少 bitcoin/aud: <value>")), w') /\
    sent w' = 2%nat.
Proof.
  destruct (@prices_unchecked_by_fetch_checked_by_caller Samples.plain_builtins
              Samples.settings) as [_ Hcaller].
  destruct (Hcaller Samples.quoted_in_usd _ _ _ _ _ [] "Bitcoin" "bitcoin"
              [("WLFI", "world-liberty-financial")]
              eq_refl eq_refl eq_refl eq_refl eq_refl) as [_ Hmain].
  eexists. split; [exact Hmain|reflexivity].
Defined.

End CryptoEtfSyncClaims.

(** ** The listed-security quote operation *)

Module YahooClaims.
Import Py World WorldFacts CryptoEtfSync.

Section Script.
Context `{Builtins} (cfg : settings).

(** The operation up to the decoded body: one request, the status check, the
    decoding. *)
Lemma yahoo_error_status ticker w r :
  replies w (sent w) = Answered r ->
  error_status (status_code r) = true ->
  yahoo_last_price ticker w
  = (Raise (HTTPError (status_code r)), later w 1 0 [Requested (quote_request ticker)]).
Proof.
  intros Hr Herr. unfold yahoo_last_price, requests_get.
  rewrite (bind_ok _ _ _ _ _ (requests_send_answered _ _ _ Hr)).
  by rewrite (bind_raise _ _ _ _ _ (raise_for_status_error _ _ Herr)).
Qed.

Lemma yahoo_decoded ticker w r data :
  replies w (sent w) = Answered r ->
  error_status (status_code r) = false ->
  json_body r = Some data ->
  yahoo_last_price ticker w
  = (quote_of data, later w 1 0 [Requested (quote_request ticker)]).
Proof.
  intros Hr Hok Hbody. unfold yahoo_last_price, requests_get.
  rewrite (bind_ok _ _ _ _ _ (requests_send_answered _ _ _ Hr)).
  rewrite (bind_ok _ _ _ _ _ (raise_for_status_ok _ _ Hok)).
  unfold response_json. rewrite Hbody.
  set (w' := later w 1 0 _). unfold quote_of.
  unfold mbind at 1, M_bind at 1, mret at 1, M_ret at 1.
  unfold mbind, M_bind, result_bind, lift, mret, M_ret, result_ret.
  destruct (py_get data "chart" (VDict [])) as [chart|e]; [|done].
  destruct (py_get chart "result" VNone) as [result|e]; [|done].
  destruct (py_get chart "error" VNone) as [err|e]; [|done].
  destruct (truthy err || negb (truthy result)); [done|].
  destruct (py_index result 0) as [first|e]; [|done].
  destruct (py_get first "meta" (VDict [])) as [meta|e]; [|done].
  destruct (py_get meta "regularMarketPrice" VNone) as [live|e]; [|done].
  destruct (truthy live).
  - destruct live; try done; by destruct (py_float _).
  - destruct (py_get meta "previousClose" VNone) as [[]|e]; try done;
      by destruct (py_float _).
Qed.

(** The price the operation takes from the metadata of the first result: the
    live price when it is truthy, otherwise the previous close. A live price
    of zero is not truthy. *)
Lemma quote_of_meta data chart first rest meta :
  py_get data "chart" (VDict []) = Ok (VDict chart) ->
  truthy (from_option id VNone (dict_lookup "error" chart)) = false ->
  dict_lookup "result" chart = Some (VList (first :: rest)) ->
  py_get first "meta" (VDict []) = Ok (VDict meta) ->
  let live := from_option id VNone (dict_lookup "regularMarketPrice" meta) in
  let previous := from_option id VNone (dict_lookup "previousClose" meta) in
  quote_of data
  = match (if truthy live then live else previous) with
    | VNone => Ok None
    | price => f ← py_float price; Ok (Some f)
    end.
Proof.
  intros Hchart Herr Hresult Hmeta live previous.
  unfold quote_of. rewrite Hchart. simpl. rewrite Hresult. simpl.
  rewrite Herr. simpl. rewrite Hmeta. simpl.
  fold live previous. clearbody live previous.
  destruct (truthy live); [by destruct live|by destruct previous].
Qed.

Lemma quote_of_live_price data chart first rest meta live :
  py_get data "chart" (VDict []) = Ok (VDict chart) ->
  truthy (from_option id VNone (dict_lookup "error" chart)) = false ->
  dict_lookup "result" chart = Some (VList (first :: rest)) ->
  py_get first "meta" (VDict []) = Ok (VDict meta) ->
  dict_lookup "regularMarketPrice" meta = Some (VFloat live) ->
  truthy (VFloat live) = true ->
  quote_of data = Ok (Some live).
Proof.
  intros Hchart Herr Hresult Hmeta Hlive Htruthy.
  rewrite (quote_of_meta _ _ _ _ _ Hchart Herr Hresult Hmeta).
  rewrite Hlive. simpl from_option. by rewrite Htruthy.
Qed.

(** C4, as amended. A reply that passes the status check and decodes to an
    object whose [chart] member is an object (or is absent) yields no price,
    without an exception, when the [error] member is truthy or the [result]
    member is absent, null or empty; the caller [sync_etfs] then ends the run
    with a [RuntimeError] naming the ticker, having asked the store nothing
    for it. A reply with an error status raises the HTTP error whatever its
    body reports. *)
Theorem yahoo_no_price_on_reported_error :
  (forall ticker w r data chart,
     replies w (sent w) = Answered r ->
     error_status (status_code r) = false ->
     json_body r = Some data ->
     py_get data "chart" (VDict []) = Ok (VDict chart) ->
     truthy (from_option id VNone (dict_lookup "error" chart)) = true \/
     truthy (from_option id VNone (dict_lookup "result" chart)) = false ->
     let w' := later w 1 0 [Requested (quote_request ticker)] in
     yahoo_last_price ticker w = (Ok None, w') /\
     forall db_props notion_name,
       sync_etfs_body cfg db_props (notion_name, ticker) w
       = (Raise (RuntimeError ("Yahoo 无法获取价格：" +:+ ticker
                               +:+ "（可能代码不对或未收录）")), w')) /\
  (forall ticker w r,
     replies w (sent w) = Answered r ->
     error_status (status_code r) = true ->
     yahoo_last_price ticker w
     = (Raise (HTTPError (status_code r)),
        later w 1 0 [Requested (quote_request ticker)])).
Proof.
  split; [|apply yahoo_error_status].
  intros ticker w r data chart Hr Hok Hbody Hchart Hnone w'.
  assert (Hquote : yahoo_last_price ticker w = (Ok None, w')).
  { rewrite (yahoo_decoded _ _ _ _ Hr Hok Hbody). f_equal.
    unfold quote_of. rewrite Hchart. simpl.
    destruct Hnone as [-> | ->]; [done|]. by rewrite orb_true_r. }
  split; [done|].
  intros db_props notion_name. unfold sync_etfs_body.
  by rewrite (bind_ok _ _ _ _ _ Hquote).
Qed.
End Script.

Lemma yahoo_no_price_on_reported_error_witness :
  @yahoo_last_price Samples.plain_builtins "IVV.AX" Samples.unknown_symbol_200
  = (Ok None, later Samples.unknown_symbol_200 1 0 [Requested (quote_request "IVV.AX")]).
Proof.
  destruct (@yahoo_no_price_on_reported_error Samples.plain_builtins Samples.settings)
    as [Hnone _].
  refine (proj1 (Hnone "IVV.AX" Samples.unknown_symbol_200 _ Samples.symbol_not_found _
                   eq_refl eq_refl eq_refl eq_refl _)).
  left. reflexivity.
Defined.

(** C4 as it is worded fails on the reply the feed gives for a symbol it does
    not know: the [error] member is not null, and the status check raises
    before the body is looked at. Past the status check, an [error] member
    that is not null but empty is not taken as an error, and a body whose
    [chart] is null, which has no result set, raises. *)
Lemma yahoo_reported_error_can_raise :
  ~ (forall (builtins : Builtins) ticker w r data chart error,
       replies w (sent w) = Answered r ->
       json_body r = Some (VDict data) ->
       dict_lookup "chart" data = Some (VDict chart) ->
       dict_lookup "error" chart = Some error ->
       error <> VNone ->
       (yahoo_last_price ticker w).1 = Ok None) /\
  (@yahoo_last_price Samples.plain_builtins "IVV.AX" Samples.unknown_symbol).1
  = Raise (HTTPError 404) /\
  (@yahoo_last_price Samples.plain_builtins "IVV.AX" Samples.empty_error).1
  = Ok (Some Samples.forty_two) /\
  (@yahoo_last_price Samples.plain_builtins "IVV.AX" Samples.null_chart).1
  = Raise AttributeError.
Proof.
  split; [|by repeat split].
  intros Hclaim.
  specialize (Hclaim Samples.plain_builtins "IVV.AX" Samples.unknown_symbol
                _ _ _ _ eq_refl eq_refl eq_refl eq_refl).
  discriminate Hclaim. discriminate.
Qed.

(** C5 at a quote whose live price is 0.0 and whose previous close is 42.0:
    the operation returns the previous close. *)
Lemma yahoo_zero_live_price_returns_previous_close :
  dict_lookup "regularMarketPrice"
    [("symbol", VStr "IVV.AX"); ("regularMarketPrice", VFloat (S754_zero false));
     ("previousClose", VFloat Samples.forty_two)] = Some (VFloat (S754_zero false)) /\
  (@yahoo_last_price Samples.plain_builtins "IVV.AX" Samples.halted).1
  = Ok (Some Samples.forty_two).
Proof. split; reflexivity. Qed.

End YahooClaims.

(** ** [crypto_sync.py]: the unbound global *)

Module CryptoSyncFacts.
Import Py World WorldFacts CryptoSync.

Section Script.
Context `{Builtins} (cfg : settings).

(** The module body binds no [NOTION_DATABASE_ID], and no built-in has the
    name. *)
Lemma database_id_unbound :
  module_globals cfg !! "NOTION_DATABASE_ID" = None /\
  "NOTION_DATABASE_ID" ∉ builtin_names.
Proof. split; [reflexivity|]. by apply (bool_decide_eq_false_1 _). Qed.

(** The globals the functions read are bound to the values used for them. *)
Lemma globals_bound :
  module_globals cfg !! "NOTION_HEADERS" = Some (str_dict (NOTION_HEADERS cfg)) /\
  module_globals cfg !! "COINS" = Some (str_dict COINS) /\
  module_globals cfg !! "VS_CURRENCY" = Some (VStr VS_CURRENCY).
Proof. repeat split; reflexivity. Qed.

Lemma load_database_id w :
  load_global cfg "NOTION_DATABASE_ID" w = (Raise (NameError "NOTION_DATABASE_ID"), w).
Proof.
  destruct database_id_unbound as [Hglobal Hbuiltin].
  unfold load_global. rewrite Hglobal. by rewrite bool_decide_eq_false_2.
Qed.

Lemma schema_read_name_error w :
  notion_get_database_properties cfg w = (Raise (NameError "NOTION_DATABASE_ID"), w).
Proof.
  unfold notion_get_database_properties.
  by rewrite (bind_raise _ _ _ _ _ (load_database_id w)).
Qed.

Lemma locator_name_error name w :
  notion_query_page_id_by_name cfg name w = (Raise (NameError "NOTION_DATABASE_ID"), w).
Proof.
  unfold notion_query_page_id_by_name.
  by rewrite (bind_raise _ _ _ _ _ (load_database_id w)).
Qed.

Lemma main_name_error w :
  main cfg w = (Raise (NameError "NOTION_DATABASE_ID"), w).
Proof.
  unfold main. by rewrite (bind_raise _ _ _ _ _ (schema_read_name_error w)).
Qed.
End Script.

(** No run of the script changes the world: the import fails, or [main]
    does at its first statement. *)
Lemma run_changes_nothing `{Builtins} environ w : (run environ w).2 = w.
Proof.
  unfold run. destruct (module_body environ) as [cfg|e]; [|done].
  by rewrite main_name_error.
Qed.

End CryptoSyncFacts.

Module CryptoSyncClaims.
Import Py World WorldFacts CryptoSync CryptoSyncFacts.

(** C9. In [crypto_sync.py] the name [NOTION_DATABASE_ID], which the schema
    read and the locator both use, is bound nowhere in the module. So once the
    module is loaded, every run of [main] ends with a [NameError] for that
    name at the schema read, its first statement, and the world is as it was:
    no price was fetched, no row looked up, no row updated. *)
Theorem crypto_sync_main_name_error `{Builtins} environ cfg w :
  module_body environ = Ok cfg ->
  (module_globals cfg !! "NOTION_DATABASE_ID" = None /\
   "NOTION_DATABASE_ID" ∉ builtin_names) /\
  notion_get_database_properties cfg w = (Raise (NameError "NOTION_DATABASE_ID"), w) /\
  (forall name,
     notion_query_page_id_by_name cfg name w
     = (Raise (NameError "NOTION_DATABASE_ID"), w)) /\
  main cfg w = (Raise (NameError "NOTION_DATABASE_ID"), w) /\
  run environ w = (Raise (NameError "NOTION_DATABASE_ID"), w).
Proof.
  intros Hload. split; [apply database_id_unbound|].
  split; [apply schema_read_name_error|].
  split; [intros name; apply locator_name_error|].
  split; [apply main_name_error|].
  unfold run. rewrite Hload. apply main_name_error.
Qed.

Lemma crypto_sync_main_name_error_witness :
  @run Samples.plain_builtins Samples.environ Samples.store_up
  = (Raise (NameError "NOTION_DATABASE_ID"), Samples.store_up).
Proof.
  refine (proj2 (proj2 (proj2 (proj2
    (@crypto_sync_main_name_error Samples.plain_builtins Samples.environ
       {| NOTION_TOKEN := "secret"; CRYPTO_DB_ID := "crypto-db"; ETF_DB_ID := "etf-db" |}
       Samples.store_up _))))).
  reflexivity.
Defined.

End CryptoSyncClaims.

(** ** The record locator and the record updater *)

Module NotionFacts.
Import Py World WorldFacts.

Lemma is_prefix_append p s : is_prefix p (p +:+ s) = true.
Proof.
  induction p as [|a p IH]; [done|].
  rewrite PyFacts.append_cons. simpl. by rewrite Ascii.eqb_refl.
Qed.

Lemma is_substring_here p s : is_substring p (p +:+ s) = true.
Proof.
  destruct (p +:+ s) eqn:Hs; simpl; rewrite <- Hs, is_prefix_append; done.
Qed.

Lemma is_substring_later p a s :
  is_substring p s = true -> is_substring p (a +:+ s) = true.
Proof.
  intros Hs. induction a as [|c a IH]; [done|].
  rewrite PyFacts.append_cons. simpl. rewrite IH. apply orb_true_r.
Qed.

Lemma dict_lookup_set_ne key key' v entries :
  key <> key' ->
  dict_lookup key' (dict_set key v entries) = dict_lookup key' entries.
Proof.
  intros Hne. induction entries as [|[k v0] rest IH]; simpl.
  - destruct (String.eqb_spec key key'); [done|done].
  - destruct (String.eqb_spec k key) as [->|Hk]; simpl.
    + destruct (String.eqb_spec key key'); [done|done].
    + destruct (String.eqb_spec k key'); [done|apply IH].
Qed.

(** Fields that the payload does not name are out of reach of the update. *)
Lemma patch_row_frame properties : forall row field,
  field ∉ dict_keys properties ->
  dict_lookup field (patch_row row properties) = dict_lookup field row.
Proof.
  unfold patch_row, dict_keys.
  induction properties as [|[name v] rest IH]; intros row field Hfield; [done|].
  simpl in *. apply not_elem_of_cons in Hfield as [Hne Hrest].
  rewrite IH by done. apply dict_lookup_set_ne. congruence.
Qed.

End NotionFacts.

Module LocatorClaims.
Import Py World WorldFacts NotionFacts CryptoEtfSync.

Section Script.
Context `{Builtins} (cfg : settings).

(** C6. When the store answers the query with no row, the locator raises a
    [RuntimeError] whose message holds the identifier of the store and the
    title looked for; when it answers with rows, the locator returns the [id]
    of the first. (The locator of [crypto_sync.py] sends no query at all: it
    stops at the unbound global, see [CryptoSyncFacts.locator_name_error].) *)
Theorem locator_first_row_or_not_found database_id title_value w r body rows :
  replies w (sent w) = Answered r ->
  error_status (status_code r) = false ->
  json_body r = Some body ->
  py_get body "results" (VList []) = Ok (VList rows) ->
  let w' := later w 1 0 [Requested (query_request cfg database_id title_value)] in
  let message :=
    "Notion DB(" +:+ database_id +:+ ") 找不到 " +:+ TITLE_PROP +:+ " == " +:+ dquote
    +:+ title_value +:+ dquote +:+ " 的行" in
  (rows = [] ->
   notion_find_page_id_by_title cfg database_id title_value w
   = (Raise (RuntimeError message), w') /\
   is_substring database_id message = true /\
   is_substring title_value message = true) /\
  (forall first rest fields page_id,
     rows = first :: rest ->
     first = VDict fields ->
     dict_lookup "id" fields = Some page_id ->
     notion_find_page_id_by_title cfg database_id title_value w = (Ok page_id, w')).
Proof.
  intros Hr Hok Hbody Hresults w' message.
  assert (Hrun : notion_find_page_id_by_title cfg database_id title_value w
                 = (match rows with
                    | [] => Raise (RuntimeError message)
                    | first :: _ => py_item first "id"
                    end, w')).
  { unfold notion_find_page_id_by_title. rewrite requests_post_sends by reflexivity.
    rewrite (bind_ok _ _ _ _ _ (requests_send_answered _ _ _ Hr)).
    rewrite (bind_ok _ _ _ _ _ (raise_for_status_ok _ _ Hok)).
    unfold response_json. rewrite Hbody.
    unfold mbind at 1, M_bind at 1, mret at 1, M_ret at 1.
    unfold mbind at 1, M_bind at 1, lift at 1. rewrite Hresults.
    destruct rows as [|first rest]; [done|].
    simpl. unfold mbind, M_bind, lift. by destruct (py_item first "id"). }
  split.
  - intros ->. split; [exact Hrun|]. split.
    + subst message. apply is_substring_later, is_substring_here.
    + subst message. do 6 apply is_substring_later. apply is_substring_here.
  - intros first rest fields page_id -> -> Hid.
    rewrite Hrun. simpl. by rewrite Hid.
Qed.
End Script.

Lemma locator_first_row_or_not_found_witness :
  exists w',
    notion_find_page_id_by_title Samples.settings "crypto-db" "Bitcoin" Samples.no_rows
    = (Raise (RuntimeError ("Notion DB(crypto-db) 找不到 Name == " +:+ dquote
                            +:+ "Bitcoin" +:+ dquote +:+ " 的行")), w') /\
    length (requests_of (log w')) = 1%nat.
Proof.
  destruct (locator_first_row_or_not_found Samples.settings "crypto-db" "Bitcoin"
              Samples.no_rows _ _ [] eq_refl eq_refl eq_refl eq_refl) as [Hnone _].
  destruct (Hnone eq_refl) as [Hrun _].
  eexists. split; [exact Hrun|reflexivity].
Defined.

End LocatorClaims.

Module UpdaterFacts.
Import Py World WorldFacts NotionFacts.

(** What follows the PATCH in both updaters leaves one request in the log,
    whatever the reply. *)
Lemma sent_once (rq : request) (after : response -> M unit) w :
  (forall r w1, exists outcome prints,
     after r w1 = (outcome, later w1 0 0 prints) /\ requests_of prints = []) ->
  exists outcome prints,
    (r ← requests_send rq; after r) w = (outcome, later w 1 0 (Requested rq :: prints)) /\
    requests_of prints = [].
Proof.
  intros Hafter. destruct (replies w (sent w)) as [r|] eqn:Hr.
  - rewrite (bind_ok _ _ _ _ _ (requests_send_answered _ _ _ Hr)).
    destruct (Hafter r (later w 1 0 [Requested rq])) as (outcome & prints & -> & Hprints).
    exists outcome, prints. by rewrite later_later.
  - rewrite (bind_raise _ _ _ _ _ (requests_send_unanswered _ _ Hr)).
    by exists (Raise RequestException), [].
Qed.

Lemma status_check_quiet r w1 :
  exists outcome prints,
    raise_for_status r w1 = (outcome, later w1 0 0 prints) /\ requests_of prints = [].
Proof.
  unfold raise_for_status. destruct (error_status (status_code r));
    eexists _, []; by rewrite later_nothing.
Qed.

(** A PATCH whose payload cannot be encoded stops the updater before
    anything is sent. *)
Lemma patch_refused url headers payload timeout (after : response -> M unit) w :
  json_dumps_error payload = Some ValueError ->
  (r ← requests_patch url headers payload timeout; after r) w
  = (Raise InvalidJSONError, w).
Proof.
  intros Hjson. by rewrite (bind_raise _ _ _ _ _ (requests_patch_refused _ _ _ _ w Hjson)).
Qed.

Lemma patch_once url headers payload timeout (after : response -> M unit) w :
  json_dumps_error payload = None ->
  (forall r w1, exists outcome prints,
     after r w1 = (outcome, later w1 0 0 prints) /\ requests_of prints = []) ->
  exists outcome prints,
    (r ← requests_patch url headers payload timeout; after r) w
    = (outcome,
       later w 1 0
         (Requested {| method := PATCH; url := url; params := []; headers := headers;
                       json := Some payload; timeout := timeout |} :: prints)) /\
    requests_of prints = [].
Proof.
  intros Hjson Hafter. rewrite (requests_patch_sends _ _ _ _ Hjson).
  by apply sent_once.
Qed.

(** The payload of an update is refused by the encoder exactly when the price
    is NaN or an infinity. *)
Lemma payload_error (name other : string) price (stamp : option datetime) :
  json_dumps_error
    (VDict [("properties",
             VDict ((name, VDict [("number", VFloat price)])
                    :: from_option (fun now => [(other, date_field now)]) [] stamp))])
  = if non_finite price then Some ValueError else None.
Proof. destruct stamp; simpl; by destruct (non_finite price). Qed.

Section EtfScript.
Import CryptoEtfSync.
Context `{Builtins} (cfg : settings).

Lemma etf_update_refused database_props page_id price w :
  py_in PRICE_PROP database_props <> Ok true ->
  exists e,
    notion_update_price cfg database_props page_id price w = (Raise e, w) /\
    (py_in PRICE_PROP database_props = Ok false ->
     e = RuntimeError ("Notion 数据库缺少列: " +:+ PRICE_PROP)).
Proof.
  intros Hprice. unfold notion_update_price, mbind at 1, M_bind at 1, lift at 1.
  destruct (py_in PRICE_PROP database_props) as [[|]|e]; [done| |].
  - by eexists.
  - exists e. by split.
Qed.

Lemma etf_update_sends database_props page_id price w :
  py_in PRICE_PROP database_props = Ok true ->
  exists has_last_updated outcome prints,
    py_in LAST_UPDATED_PROP database_props = Ok has_last_updated /\
    let stamp := if has_last_updated : bool
                 then Some (instants w (clock_reads w)) else None in
    notion_update_price cfg database_props page_id price w
    = (outcome,
       later w (if non_finite price then 0 else 1) (if has_last_updated then 1 else 0)
         (if non_finite price then []
          else Requested (update_request cfg page_id (update_properties price stamp))
               :: prints)) /\
    requests_of prints = [].
Proof.
  intros Hprice.
  assert (exists b, py_in LAST_UPDATED_PROP database_props = Ok b) as [has_last Hlast].
  { destruct database_props; try discriminate; by eexists. }
  exists has_last.
  enough (exists outcome prints,
    notion_update_price cfg database_props page_id price w
    = (outcome,
       later w (if non_finite price then 0 else 1) (if has_last then 1 else 0)
         (if non_finite price then []
          else Requested (update_request cfg page_id
                 (update_properties price (if has_last then Some (instants w (clock_reads w))
                                   else None))) :: prints)) /\
    requests_of prints = []) as (outcome & prints & Hrun & Hprints)
    by (by exists outcome, prints).
  assert (Hafter : forall r w1, exists outcome prints,
            ((if 400 <=? status_code r
              then print ("[Notion] Update failed: " +:+ str_of_int (status_code r)
                          +:+ " " +:+ text r)
              else mret ());; raise_for_status r) w1
            = (outcome, later w1 0 0 prints) /\ requests_of prints = []).
  { intros r w1. destruct (400 <=? status_code r).
    - rewrite (bind_ok _ _ _ _ _ (print_later _ _)).
      destruct (status_check_quiet r (later w1 0 0 [Printed
        ("[Notion] Update failed: " +:+ str_of_int (status_code r) +:+ " " +:+ text r)]))
        as (outcome & prints & -> & Hprints).
      eexists outcome, _. rewrite later_later. split; [reflexivity|]. done.
    - unfold mbind, M_bind, mret, M_ret. apply status_check_quiet. }
  unfold notion_update_price.
  rewrite (bind_ok _ _ _ _ _ (lift_ok _ _ w Hprice)). cbn [negb].
  rewrite (bind_ok _ _ _ _ _ (lift_ok _ _ w Hlast)).
  pose proof (payload_error PRICE_PROP LAST_UPDATED_PROP price
                (if has_last then Some (instants w (clock_reads w)) else None)) as Hjson.
  destruct has_last.
  - assert (Hstamp :
      (now ← datetime_now_utc;
       mret (dict_set LAST_UPDATED_PROP
               (VDict [("date", VDict [("start", VStr (isoformat now))])])
               [(PRICE_PROP, VDict [("number", VFloat price)])])) w
      = (Ok (update_properties price (Some (instants w (clock_reads w)))), later w 0 1 [])).
    { by rewrite (bind_ok _ _ _ _ _ (datetime_now_later w)). }
    rewrite (bind_ok _ _ _ _ _ Hstamp).
    destruct (non_finite price).
    + exists (Raise InvalidJSONError), []. split; [|done].
      exact (patch_refused _ _ _ _ _ (later w 0 1 []) Hjson).
    + destruct (patch_once ("https://api.notion.com/v1/pages/" +:+ format_value page_id)
                  (NOTION_HEADERS cfg) _ 20 _ (later w 0 1 []) Hjson Hafter)
        as (outcome & prints & Hrun & Hprints).
      exists outcome, prints. split; [|done].
      etrans; [exact Hrun|]. by rewrite later_later.
  - unfold mbind at 1, M_bind at 1, mret at 1, M_ret at 1.
    destruct (non_finite price).
    + exists (Raise InvalidJSONError), []. split; [|done].
      etrans; [exact (patch_refused _ _ _ _ _ w Hjson)|]. by rewrite later_nothing.
    + destruct (patch_once ("https://api.notion.com/v1/pages/" +:+ format_value page_id)
                  (NOTION_HEADERS cfg) _ 20 _ w Hjson Hafter)
        as (outcome & prints & Hrun & Hprints).
      exists outcome, prints. split; [|done]. exact Hrun.
Qed.
End EtfScript.

Section CryptoScript.
Import CryptoSync.
Context `{Builtins} (cfg : settings).

Lemma crypto_update_sends page_id price (has_last_updated : bool) w :
  exists outcome,
    let stamp := if has_last_updated then Some (instants w (clock_reads w)) else None in
    notion_update_price cfg page_id price has_last_updated w
    = (outcome,
       later w (if non_finite price then 0 else 1) (if has_last_updated then 1 else 0)
         (if non_finite price then []
          else [Requested (update_request cfg page_id (update_properties price stamp))])).
Proof.
  pose proof (payload_error "Current Price" "Last Updated" price
                (if has_last_updated then Some (instants w (clock_reads w)) else None))
    as Hjson.
  unfold notion_update_price. destruct has_last_updated.
  - unfold mbind at 1, M_bind at 1.
    rewrite (bind_ok _ _ _ _ _ (datetime_now_later w)).
    unfold mret at 1, M_ret at 1.
    destruct (non_finite price).
    { exists (Raise InvalidJSONError).
      exact (patch_refused _ _ _ _ _ (later w 0 1 []) Hjson). }
    rewrite (requests_patch_sends _ _ _ _ Hjson).
    destruct (replies w (sent w)) as [r|] eqn:Hr.
    + set (w1 := later w 0 1 []).
      assert (Hr1 : replies w1 (sent w1) = Answered r).
      { simpl. by rewrite Nat.add_0_r. }
      rewrite (bind_ok _ _ _ _ _ (requests_send_answered _ _ _ Hr1)).
      unfold raise_for_status. subst w1. rewrite later_later.
      destruct (error_status (status_code r)); by eexists.
    + set (w1 := later w 0 1 []).
      assert (Hr1 : replies w1 (sent w1) = Unanswered).
      { simpl. by rewrite Nat.add_0_r. }
      rewrite (bind_raise _ _ _ _ _ (requests_send_unanswered _ _ Hr1)).
      subst w1. rewrite later_later. by eexists.
  - unfold mbind at 1, M_bind at 1, mret at 1, M_ret at 1.
    destruct (non_finite price).
    { exists (Raise InvalidJSONError).
      etrans; [exact (patch_refused _ _ _ _ _ w Hjson)|]. by rewrite later_nothing. }
    rewrite (requests_patch_sends _ _ _ _ Hjson).
    destruct (replies w (sent w)) as [r|] eqn:Hr.
    + rewrite (bind_ok _ _ _ _ _ (requests_send_answered _ _ _ Hr)).
      unfold raise_for_status.
      destruct (error_status (status_code r)); by eexists.
    + rewrite (bind_raise _ _ _ _ _ (requests_send_unanswered _ _ Hr)). by eexists.
Qed.
End CryptoScript.

End UpdaterFacts.

Module UpdaterClaims.
Import Py World WorldFacts NotionFacts UpdaterFacts.

(** C7. Given a schema without the price field, the updater of
    [crypto_etf_sync.py] raises before it sends anything: the world after the
    call is the world before it. The updater of [crypto_sync.py] is given no
    schema, and no run of that script gets as far as a request. *)
Theorem updater_refuses_schema_without_price `{Builtins}
    (cfg : CryptoEtfSync.settings) database_props page_id price w :
  py_in CryptoEtfSync.PRICE_PROP database_props = Ok false ->
  CryptoEtfSync.notion_update_price cfg database_props page_id price w
  = (Raise (RuntimeError ("Notion 数据库缺少列: " +:+ CryptoEtfSync.PRICE_PROP)), w) /\
  forall environ w0, (CryptoSync.run environ w0).2 = w0.
Proof.
  intros Hprice. split; [|intros; apply CryptoSyncFacts.run_changes_nothing].
  destruct (etf_update_refused cfg database_props page_id price w) as (e & Hrun & He).
  { by rewrite Hprice. }
  by rewrite Hrun, (He Hprice).
Qed.

Lemma updater_refuses_schema_without_price_witness :
  @CryptoEtfSync.notion_update_price Samples.plain_builtins Samples.settings
    Samples.properties_without_price (VStr "page-1") Samples.forty_two Samples.store_up
  = (Raise (RuntimeError "Notion 数据库缺少列: Current Price"), Samples.store_up).
Proof.
  exact (proj1 (@updater_refuses_schema_without_price Samples.plain_builtins
                  Samples.settings Samples.properties_without_price (VStr "page-1")
                  Samples.forty_two Samples.store_up eq_refl)).
Defined.

(** C8. Every write of the updater carries the price under the price field,
    and carries the instant of the update, as the ISO 8601 text of an aware
    UTC datetime, under the timestamp field exactly when the schema has that
    field; otherwise the payload has no such key. In [crypto_sync.py] the
    caller passes the presence of the field in the schema as a flag. The
    updater issues that one write when the price is a finite number; a price
    that is NaN or an infinity is refused when the payload is encoded, and
    then no request is issued at all. *)
Theorem update_payload_stamped_iff_schema `{Builtins}
    (cfg : CryptoEtfSync.settings) (cfg' : CryptoSync.settings) page_id price w :
  let now := instants w (clock_reads w) in
  (forall database_props,
     py_in CryptoEtfSync.PRICE_PROP database_props = Ok true ->
     exists has_last_updated props,
       py_in CryptoEtfSync.LAST_UPDATED_PROP database_props = Ok has_last_updated /\
       requests_of
         (log (CryptoEtfSync.notion_update_price cfg database_props page_id price w).2)
       = requests_of (log w)
         ++ (if non_finite price then []
             else [CryptoEtfSync.update_request cfg page_id props]) /\
       dict_lookup CryptoEtfSync.PRICE_PROP props
       = Some (VDict [("number", VFloat price)]) /\
       dict_lookup CryptoEtfSync.LAST_UPDATED_PROP props
       = (if has_last_updated : bool then Some (date_field now) else None)) /\
  (forall has_last_updated : bool,
     exists props,
       requests_of
         (log (CryptoSync.notion_update_price cfg' page_id price has_last_updated w).2)
       = requests_of (log w)
         ++ (if non_finite price then []
             else [CryptoSync.update_request cfg' page_id props]) /\
       dict_lookup "Current Price" props = Some (VDict [("number", VFloat price)]) /\
       dict_lookup "Last Updated" props
       = (if has_last_updated then Some (date_field now) else None)) /\
  (valid_datetime now -> is_iso8601_utc (isoformat now) = true).
Proof.
  intros now. split; [|split; [|apply PyFacts.isoformat_utc]].
  - intros database_props Hprice.
    destruct (etf_update_sends cfg database_props page_id price w Hprice)
      as (has_last & outcome & prints & Hlast & Hrun & Hprints).
    exists has_last,
      (CryptoEtfSync.update_properties price (if has_last then Some now else None)).
    split; [exact Hlast|].
    rewrite Hrun. cbn [snd log later]. rewrite requests_of_app. split.
    + f_equal. destruct (non_finite price); [done|].
      change (requests_of (Requested ?rq :: prints)) with (rq :: requests_of prints).
      by rewrite Hprints.
    + by destruct has_last.
  - intros has_last.
    destruct (crypto_update_sends cfg' page_id price has_last w) as (outcome & Hrun).
    exists (CryptoSync.update_properties price (if has_last then Some now else None)).
    rewrite Hrun. cbn [snd log later]. rewrite requests_of_app. split.
    + f_equal. by destruct (non_finite price).
    + by destruct has_last.
Qed.

Lemma update_payload_stamped_iff_schema_witness :
  is_iso8601_utc (isoformat Samples.noon) = true /\
  exists props,
    requests_of
      (log (@CryptoEtfSync.notion_update_price Samples.plain_builtins Samples.settings
              Samples.properties (VStr "page-1") Samples.forty_two Samples.store_up).2)
    = [@CryptoEtfSync.update_request Samples.plain_builtins Samples.settings
         (VStr "page-1") props] /\
    dict_lookup "Last Updated" props = Some (date_field Samples.noon).
Proof.
  destruct (@update_payload_stamped_iff_schema Samples.plain_builtins Samples.settings
              {| CryptoSync.NOTION_TOKEN := "secret"; CryptoSync.CRYPTO_DB_ID := "crypto-db";
                 CryptoSync.ETF_DB_ID := "etf-db" |}
              (VStr "page-1") Samples.forty_two Samples.store_up)
    as (Hetf & _ & Hiso).
  split.
  - apply Hiso. unfold valid_datetime. simpl. lia.
  - destruct (Hetf Samples.properties eq_refl) as (has_last & props & Hlast & Hreq & _ & Hstamp).
    exists props. split; [exact Hreq|].
    injection Hlast as <-. exact Hstamp.
Defined.

(** C10. The [properties] of the payload of every write hold the price field
    and, when the update is stamped, the timestamp field, and no other key; a
    store that changes the fields named in the payload and keeps the others
    leaves every other field of the row as it was. A call of either updater
    issues no request, or the one write described. *)
Theorem update_touches_price_and_timestamp_only `{Builtins}
    (cfg : CryptoEtfSync.settings) (cfg' : CryptoSync.settings) page_id price w :
  (forall database_props,
     let w' := (CryptoEtfSync.notion_update_price cfg database_props page_id price w).2 in
     requests_of (log w') = requests_of (log w) \/
     exists props,
       requests_of (log w')
       = requests_of (log w) ++ [CryptoEtfSync.update_request cfg page_id props] /\
       (dict_keys props = [CryptoEtfSync.PRICE_PROP] \/
        dict_keys props = [CryptoEtfSync.PRICE_PROP; CryptoEtfSync.LAST_UPDATED_PROP]) /\
       forall row field,
         field <> CryptoEtfSync.PRICE_PROP ->
         field <> CryptoEtfSync.LAST_UPDATED_PROP ->
         dict_lookup field (patch_row row props) = dict_lookup field row) /\
  (forall has_last_updated : bool,
     let w' := (CryptoSync.notion_update_price cfg' page_id price has_last_updated w).2 in
     requests_of (log w') = requests_of (log w) \/
     exists props,
       requests_of (log w')
       = requests_of (log w) ++ [CryptoSync.update_request cfg' page_id props] /\
       dict_keys props
       = "Current Price" :: (if has_last_updated then ["Last Updated"] else []) /\
       forall row field,
         field <> "Current Price" ->
         field <> "Last Updated" ->
         dict_lookup field (patch_row row props) = dict_lookup field row).
Proof.
  split.
  - intros database_props w'. subst w'.
    assert (py_in CryptoEtfSync.PRICE_PROP database_props = Ok true \/
            py_in CryptoEtfSync.PRICE_PROP database_props <> Ok true) as [Hprice|Hprice].
    { destruct (py_in CryptoEtfSync.PRICE_PROP database_props) as [[|]|e];
        [by left|by right|by right]. }
    + destruct (etf_update_sends cfg database_props page_id price w Hprice)
        as (has_last & outcome & prints & Hlast & Hrun & Hprints).
      rewrite Hrun. cbn [snd log later]. rewrite requests_of_app.
      destruct (non_finite price); [left; apply app_nil_r|right].
      eexists. split; [|split].
      * f_equal.
        change (requests_of (Requested ?rq :: prints)) with (rq :: requests_of prints).
        rewrite Hprints. reflexivity.
      * destruct has_last; [by right|by left].
      * intros row field Hp Hl. apply patch_row_frame.
        destruct has_last; simpl; intros Hin;
          repeat (apply elem_of_cons in Hin as [->|Hin]; [done|]);
          by apply elem_of_nil in Hin.
    + left. destruct (etf_update_refused cfg database_props page_id price w Hprice)
        as (e & -> & _). done.
  - intros has_last w'. subst w'.
    destruct (crypto_update_sends cfg' page_id price has_last w) as (outcome & Hrun).
    rewrite Hrun. cbn [snd log later]. rewrite requests_of_app.
    destruct (non_finite price); [left; apply app_nil_r|right].
    eexists. split; [reflexivity|]. split.
    + by destruct has_last.
    + intros row field Hp Hl. apply patch_row_frame.
      destruct has_last; simpl; intros Hin;
          repeat (apply elem_of_cons in Hin as [->|Hin]; [done|]);
          by apply elem_of_nil in Hin.
Qed.

Lemma update_touches_price_and_timestamp_only_witness :
  dict_lookup "Holdings"
    (patch_row Samples.bitcoin_row
       (CryptoSync.update_properties Samples.forty_two (Some Samples.noon)))
  = Some (VInt 3).
Proof.
  destruct (@update_touches_price_and_timestamp_only Samples.plain_builtins
              Samples.settings
              {| CryptoSync.NOTION_TOKEN := "secret"; CryptoSync.CRYPTO_DB_ID := "crypto-db";
                 CryptoSync.ETF_DB_ID := "etf-db" |}
              (VStr "page-1") Samples.forty_two Samples.store_up) as [_ Hcrypto].
  destruct (Hcrypto true) as [Hnone|(props & Hreq & _ & Hframe)]; [discriminate Hnone|].
  simpl in Hreq. injection Hreq as <-.
  rewrite Hframe; [reflexivity|discriminate|discriminate].
Defined.

End UpdaterClaims.

(** * Further properties of the scripts *)

(** ** Counting requests, writes and seconds *)

Module BoundFacts.
Import Py World WorldFacts.

Lemma writes_of_app e1 e2 : writes_of (e1 ++ e2) = writes_of e1 ++ writes_of e2.
Proof. unfold writes_of. by rewrite requests_of_app, filter_app. Qed.

Lemma total_app l1 l2 : total (l1 ++ l2) = total l1 + total l2.
Proof. induction l1 as [|x l1 IH]; simpl; [done|]. rewrite IH. lia. Qed.

Lemma within_weaken {A} (m : M A) n p s n' p' s' :
  within m n p s -> (n <= n')%nat -> (p <= p')%nat -> s <= s' -> within m n' p' s'.
Proof.
  intros Hm Hn Hp Hs w. destruct (Hm w) as (c & e & Hw & ? & ? & ?).
  exists c, e. repeat split; [done|lia..].
Qed.

(** A computation that leaves the world alone. *)
Lemma within_still {A} (m : M A) :
  (forall w, (m w).2 = w) -> within m 0 0 0.
Proof.
  intros Hm w. exists 0%nat, []. rewrite Hm. simpl.
  by rewrite later_nothing.
Qed.

Lemma within_ret {A} (a : A) : within (mret a) 0 0 0.
Proof. by apply within_still. Qed.

Lemma within_raise {A} e : within (@raise A e) 0 0 0.
Proof. by apply within_still. Qed.

Lemma within_lift {A} (r : result A) : within (lift r) 0 0 0.
Proof. by apply within_still. Qed.

Lemma within_bind {A B} (m : M A) (f : A -> M B) n p s n' p' s' :
  within m n p s -> (forall a, within (f a) n' p' s') -> 0 <= s' ->
  within (m ≫= f) (n + n') (p + p') (s + s').
Proof.
  intros Hm Hf Hs' w. destruct (Hm w) as (c & e & Hw & Hn & Hp & Hs).
  unfold mbind, M_bind. destruct (m w) as [[a|ex] w1]; simpl in Hw; subst w1.
  - destruct (Hf a (later w (length (requests_of e)) c e))
      as (c' & e' & Hw' & Hn' & Hp' & Hs'').
    exists (c + c')%nat, (e ++ e').
    rewrite Hw', later_later, requests_of_app, writes_of_app, sleeps_of_app,
      total_app, !length_app.
    repeat split; [lia..].
  - exists c, e. simpl. repeat split; [lia..].
Qed.

Lemma within_send rq :
  within (requests_send rq) 1 (if is_write rq then 1 else 0) 0.
Proof.
  intros w. exists 0%nat, [Requested rq]. unfold requests_send, later.
  split.
  - destruct (replies w (sent w)); simpl; by rewrite Nat.add_1_r, Nat.add_0_r.
  - unfold writes_of. simpl. destruct (is_write rq) eqn:Hrq.
    + rewrite filter_cons_True by done. simpl. lia.
    + rewrite filter_cons_False by (by rewrite Hrq). simpl. lia.
Qed.

Lemma within_print line : within (print line) 0 0 0.
Proof.
  intros w. exists 0%nat, [Printed line]. rewrite print_later. simpl.
  repeat split; [lia..].
Qed.

Lemma within_sleep seconds : within (time_sleep seconds) 0 0 (Z.max 0 seconds).
Proof.
  intros w. unfold time_sleep. destruct (Z.ltb_spec seconds 0).
  - exists 0%nat, []. simpl. rewrite later_nothing. repeat split; [lia..].
  - exists 0%nat, [Slept seconds]. unfold record, later. simpl.
    rewrite !Nat.add_0_r. repeat split; [lia..].
Qed.

Lemma within_now : within datetime_now_utc 0 0 0.
Proof.
  intros w. exists 1%nat, []. rewrite datetime_now_later. simpl.
  repeat split; [lia..].
Qed.

Lemma within_for_each {A} (xs : list A) (body : A -> M unit) n p s :
  (forall x, within (body x) n p s) -> 0 <= s ->
  within (for_each xs body) (length xs * n) (length xs * p) (Z.of_nat (length xs) * s).
Proof.
  intros Hbody Hs. induction xs as [|x xs IH].
  - apply within_ret.
  - cbn [for_each length].
    eapply within_weaken; [apply within_bind; [apply Hbody|intros; apply IH|nia]|..];
      [lia|lia|nia].
Qed.

End BoundFacts.

(** ** The retry loop, from its result *)

Module CoinGeckoExtras.
Import Py World WorldFacts BoundFacts CoinGecko CoinGeckoFacts.

Section Fetch.
Variables (ua msg : string) (ids : list string) (vs : string).

(** A reply that is not an answer of status 429 ends the loop with one more
    request. *)
Lemma attempt_final attempt rest w :
  ~ answered_with w 0 429 ->
  attempt_loop ua msg ids vs (attempt :: rest) w
  = (final_outcome (replies w (sent w)),
     later w 1 0 [Requested (price_request ua ids vs)]).
Proof.
  intros Hnot. cbn [attempt_loop]. unfold requests_get.
  destruct (replies w (sent w)) as [r|] eqn:Hr.
  - rewrite (bind_ok _ _ _ _ _ (requests_send_answered _ _ _ Hr)).
    destruct (Z.eqb_spec (status_code r) 429) as [Hs|_].
    { destruct Hnot. exists r. by rewrite Nat.add_0_r. }
    unfold final_outcome, raise_for_status, mbind, M_bind, mret, M_ret, response_json.
    destruct (error_status (status_code r)); [done|]. by destruct (json_body r).
  - by rewrite (bind_raise _ _ _ _ _ (requests_send_unanswered _ _ Hr)).
Qed.

(** Every run of the loop is some rate-limited attempts, and then either the
    end of the attempts or one request whose reply decides the result. *)
Lemma attempt_loop_classified n : forall a w,
  exists k,
    (k <= n)%nat /\
    (forall i, (i < k)%nat -> answered_with w i 429) /\
    ((k = n /\
      attempt_loop ua msg ids vs (Z.of_nat <$> seq a n) w
      = (Raise (RuntimeError msg),
         later w n 0 ((Z.of_nat <$> seq a n) ≫= rate_limited_attempt ua ids vs))) \/
     ((k < n)%nat /\ ~ answered_with w k 429 /\
      attempt_loop ua msg ids vs (Z.of_nat <$> seq a n) w
      = (final_outcome (replies w (sent w + k)),
         later w (S k) 0
           (((Z.of_nat <$> seq a k) ≫= rate_limited_attempt ua ids vs)
            ++ [Requested (price_request ua ids vs)])))).
Proof.
  induction n as [|n IH]; intros a w.
  - exists 0%nat. split; [lia|]. split; [intros; lia|]. left. split; [done|].
    simpl. by rewrite later_nothing.
  - assert (answered_with w 0 429 \/ ~ answered_with w 0 429) as [Hfirst|Hfirst].
    { unfold answered_with. rewrite Nat.add_0_r.
      destruct (replies w (sent w)) as [r|]; [|right; by intros (r & ? & _)].
      destruct (Z.eq_dec (status_code r) 429) as [Hs|Hs].
      - left. by exists r.
      - right. intros (r' & [= <-] & ?). done. }
    + cbn [seq fmap list_fmap].
      rewrite (attempt_rate_limited ua msg ids vs) by (done || lia).
      destruct (IH (S a) (later w 1 0 (rate_limited_attempt ua ids vs (Z.of_nat a))))
        as (k & Hk & Hlimited & Hend).
      exists (S k). split; [lia|]. split.
      { intros [|i] Hi; [done|].
        destruct (Hlimited i ltac:(lia)) as (r & Hr & Hs). exists r. split; [|done].
        simpl in Hr. rewrite <- Hr. f_equal. lia. }
      destruct Hend as [[-> Hrun]|(Hlt & Hnot & Hrun)].
      * left. split; [done|]. rewrite Hrun, later_later. done.
      * right. split; [lia|]. split.
        { intros (r & Hr & Hs). apply Hnot. exists r. split; [|done].
          simpl. rewrite <- Hr. f_equal. lia. }
        rewrite Hrun, later_later. simpl. do 2 f_equal.
        f_equal. lia.
    + exists 0%nat. split; [lia|]. split; [intros; lia|]. right.
      split; [lia|]. split; [done|].
      cbn [seq fmap list_fmap]. rewrite attempt_final by done.
      by rewrite Nat.add_0_r.
Qed.
End Fetch.

Lemma writes_of_rounds ua ids vs attempts :
  writes_of (attempts ≫= rate_limited_attempt ua ids vs) = [].
Proof.
  induction attempts as [|a rest IH]; [done|].
  cbn [mbind list_bind]. rewrite writes_of_app, IH. done.
Qed.

Lemma backoff_total k :
  (k <= 6)%nat ->
  0 <= total ((fun attempt => 2 * (attempt + 1)) <$> range k) <= 42.
Proof.
  intros Hk. do 7 (destruct k as [|k]; [by vm_compute|]). lia.
Qed.

(** X1. What [coingecko_get_prices] returns is the decoded body of a reply
    with a success status that came after fewer than six replies of 429 and
    nothing else; and it raises its [RuntimeError] only when six requests in a
    row were answered by 429. *)
Theorem coingecko_result_sound ua msg ids vs w :
  (forall payload,
     (coingecko_get_prices ua msg ids vs w).1 = Ok payload ->
     exists k r,
       (k < 6)%nat /\
       (forall i, (i < k)%nat -> answered_with w i 429) /\
       replies w (sent w + k)%nat = Answered r /\
       error_status (status_code r) = false /\
       json_body r = Some payload) /\
  (forall message,
     (coingecko_get_prices ua msg ids vs w).1 = Raise (RuntimeError message) ->
     message = msg /\ forall i, (i < 6)%nat -> answered_with w i 429).
Proof.
  unfold coingecko_get_prices, range.
  destruct (attempt_loop_classified ua msg ids vs 6 0 w)
    as (k & Hk & Hlimited & [[-> Hrun]|(Hlt & Hnot & Hrun)]); rewrite Hrun; simpl.
  - split; [done|]. intros message [= <-]. done.
  - split.
    + intros payload Hfinal. exists k.
      destruct (replies w (sent w + k)) as [r|]; [|done]. exists r.
      simpl in Hfinal. destruct (error_status (status_code r)); [done|].
      destruct (json_body r); [|done]. by injection Hfinal as ->.
    + intros message Hfinal. exfalso.
      destruct (replies w (sent w + k)) as [r|]; [|done].
      simpl in Hfinal. destruct (error_status (status_code r)); [done|].
      by destruct (json_body r).
Qed.

Lemma coingecko_result_sound_witness :
  exists k r,
    (k < 6)%nat /\
    replies Samples.limited_twice (sent Samples.limited_twice + k)%nat = Answered r /\
    json_body r = Some Samples.bitcoin_quote.
Proof.
  destruct (proj1 (coingecko_result_sound "notion-sync/1.0"
                     "CoinGecko rate limited too many times (429)."
                     ["bitcoin"] "aud" Samples.limited_twice)
              Samples.bitcoin_quote eq_refl)
    as (k & r & Hk & _ & Hr & _ & Hbody).
  by exists k, r.
Defined.

(** X2. Only a reply of 429 is tried again: a request that gets no answer
    (connection failure, timeout) raises what [requests] raises, and a reply
    with a success status whose body is not JSON raises the decoding error,
    each with that request as the last one. *)
Theorem coingecko_other_failures_not_retried ua msg ids vs w k :
  (k < 6)%nat ->
  (forall i, (i < k)%nat -> answered_with w i 429) ->
  let events :=
    (range k ≫= rate_limited_attempt ua ids vs) ++ [Requested (price_request ua ids vs)] in
  (replies w (sent w + k)%nat = Unanswered ->
   coingecko_get_prices ua msg ids vs w
   = (Raise RequestException, later w (S k) 0 events)) /\
  (forall r,
     replies w (sent w + k)%nat = Answered r ->
     error_status (status_code r) = false ->
     json_body r = None ->
     coingecko_get_prices ua msg ids vs w
     = (Raise JSONDecodeError, later w (S k) 0 events)).
Proof.
  intros Hk Hlimited events.
  assert (Hrun : ~ answered_with w k 429 ->
            coingecko_get_prices ua msg ids vs w
            = (final_outcome (replies w (sent w + k)), later w (S k) 0 events)).
  { intros Hnot. unfold coingecko_get_prices, range.
    replace 6%nat with (k + S (5 - k))%nat by lia.
    rewrite attempts_rate_limited by done.
    cbn [seq fmap list_fmap].
    rewrite attempt_final.
    - rewrite later_later. simpl. do 2 f_equal. lia.
    - intros (r & Hr & Hs). apply Hnot. exists r. split; [|done].
      simpl in Hr. by rewrite Nat.add_0_r in Hr. }
  split.
  - intros Hr. rewrite Hrun; [by rewrite Hr|].
    intros (r & Hr' & _). congruence.
  - intros r Hr Hok Hbody. rewrite Hrun.
    + rewrite Hr. simpl. by rewrite Hok, Hbody.
    + intros (r' & Hr' & Hs). rewrite Hr in Hr'. injection Hr' as <-.
      rewrite Hs in Hok. discriminate.
Qed.

Lemma coingecko_other_failures_not_retried_witness :
  exists w',
    CryptoSync.coingecko_get_prices ["bitcoin"] "aud" Samples.limited_then_down
    = (Raise RequestException, w') /\
    sent w' = 2%nat.
Proof.
  destruct (coingecko_other_failures_not_retried "notion-crypto-sync/1.0"
              "CoinGecko rate limited too many times (429). Try lower frequency."
              ["bitcoin"] "aud" Samples.limited_then_down 1) as [Hdown _].
  - lia.
  - intros [|i] Hi; [eexists; split; reflexivity|lia].
  - eexists. split; [exact (Hdown eq_refl)|reflexivity].
Defined.

(** X3. Whatever the feed does, [coingecko_get_prices] sends at most six
    requests, none of them a write, and waits at most 42 seconds in all. *)
Theorem coingecko_within ua msg ids vs :
  within (coingecko_get_prices ua msg ids vs) 6 0 42.
Proof.
  intros w. unfold coingecko_get_prices.
  destruct (attempt_loop_classified ua msg ids vs 6 0 w)
    as (k & Hk & _ & [[-> Hrun]|(Hlt & _ & Hrun)]); fold (range 6) in Hrun;
    [|fold (range k) in Hrun]; rewrite Hrun; cbn [snd].
  - exists 0%nat, (range 6 ≫= rate_limited_attempt ua ids vs).
    rewrite requests_of_rounds, writes_of_rounds, sleeps_of_rounds.
    split; [done|]. split; [done|]. split; [done|].
    by apply (backoff_total 6).
  - exists 0%nat,
      ((range k ≫= rate_limited_attempt ua ids vs)
       ++ [Requested (price_request ua ids vs)]).
    rewrite requests_of_app, writes_of_app, sleeps_of_app, total_app.
    rewrite requests_of_rounds, writes_of_rounds, sleeps_of_rounds.
    assert (Hlen : length (range k) = k) by (unfold range; by rewrite length_fmap, length_seq).
    rewrite length_app, length_replicate, Hlen. simpl length.
    split; [by rewrite Nat.add_1_r|]. split; [lia|]. split; [lia|].
    pose proof (backoff_total k Hk). simpl. lia.
Qed.

End CoinGeckoExtras.

(** ** [crypto_etf_sync.py]: each function from any reply *)

Module EtfFacts.
Import Py World WorldFacts UpdaterFacts BoundFacts CryptoEtfSync.

Section Script.
Context `{Builtins} (cfg : settings).

(** A request, the status check and the decoding of the body, followed by a
    step without effect. *)
Lemma fetch_json_run {A} (rq : request) (after : value -> M A)
    (pure : value -> result A) w :
  (forall body w1, after body w1 = (pure body, w1)) ->
  (r ← requests_send rq; raise_for_status r;; body ← response_json r; after body) w
  = (CoinGecko.final_outcome (replies w (sent w)) ≫= pure,
     later w 1 0 [Requested rq]).
Proof.
  intros Hafter. destruct (replies w (sent w)) as [r|] eqn:Hr.
  - rewrite (bind_ok _ _ _ _ _ (requests_send_answered _ _ _ Hr)).
    unfold CoinGecko.final_outcome, raise_for_status.
    destruct (error_status (status_code r)); [done|].
    unfold mbind at 1, M_bind at 1, mret at 1, M_ret at 1.
    unfold response_json. destruct (json_body r) as [body|]; [|done].
    unfold mbind at 1, M_bind at 1, mret at 1, M_ret at 1. apply Hafter.
  - by rewrite (bind_raise _ _ _ _ _ (requests_send_unanswered _ _ Hr)).
Qed.

Lemma schema_read_run database_id w :
  notion_get_database_properties cfg database_id w
  = (CoinGecko.final_outcome (replies w (sent w))
       ≫= (fun body => py_get body "properties" (VDict [])),
     later w 1 0 [Requested (schema_request cfg database_id)]).
Proof.
  unfold notion_get_database_properties, requests_get.
  by apply (fetch_json_run (schema_request cfg database_id)).
Qed.

Lemma locator_run database_id title_value w :
  notion_find_page_id_by_title cfg database_id title_value w
  = (CoinGecko.final_outcome (replies w (sent w)) ≫= page_id_of database_id title_value,
     later w 1 0 [Requested (query_request cfg database_id title_value)]).
Proof.
  unfold notion_find_page_id_by_title. rewrite requests_post_sends by reflexivity.
  apply (fetch_json_run (query_request cfg database_id title_value)).
  intros body w1. unfold page_id_of, mbind, M_bind, result_bind, lift, raise.
  destruct (py_get body "results" (VList [])) as [results|e]; [|done].
  destruct (negb (truthy results)); [done|].
  by destruct (py_index results 0).
Qed.

Lemma yahoo_run ticker w :
  yahoo_last_price ticker w
  = (CoinGecko.final_outcome (replies w (sent w)) ≫= quote_of,
     later w 1 0 [Requested (quote_request ticker)]).
Proof.
  destruct (replies w (sent w)) as [r|] eqn:Hr.
  - destruct (error_status (status_code r)) eqn:Hs.
    + rewrite (YahooClaims.yahoo_error_status _ _ _ Hr Hs). simpl. by rewrite Hs.
    + destruct (json_body r) as [data|] eqn:Hbody.
      * rewrite (YahooClaims.yahoo_decoded _ _ _ _ Hr Hs Hbody). simpl.
        by rewrite Hs, Hbody.
      * unfold yahoo_last_price, requests_get.
        rewrite (bind_ok _ _ _ _ _ (requests_send_answered _ _ _ Hr)).
        rewrite (bind_ok _ _ _ _ _ (raise_for_status_ok _ _ Hs)).
        unfold response_json. rewrite Hbody. simpl. by rewrite Hs, Hbody.
  - unfold yahoo_last_price, requests_get.
    by rewrite (bind_raise _ _ _ _ _ (requests_send_unanswered _ _ Hr)).
Qed.

(** The updater at a finite price, from the reply to its request. *)
Lemma update_run database_props page_id price (has_last_updated : bool) w :
  py_in PRICE_PROP database_props = Ok true ->
  py_in LAST_UPDATED_PROP database_props = Ok has_last_updated ->
  non_finite price = false ->
  let stamp := if has_last_updated then Some (instants w (clock_reads w)) else None in
  notion_update_price cfg database_props page_id price w
  = (status_outcome (replies w (sent w)),
     later w 1 (if has_last_updated then 1 else 0)
       (Requested (update_request cfg page_id (update_properties price stamp))
        :: failure_notice (replies w (sent w)))).
Proof.
  intros Hprice Hlast Hfinite stamp.
  assert (Hsend : forall props w1,
    replies w1 (sent w1) = replies w (sent w) ->
    (r ← requests_send (update_request cfg page_id props);
     (if 400 <=? status_code r
      then print ("[Notion] Update failed: " +:+ str_of_int (status_code r)
                  +:+ " " +:+ text r)
      else mret ());; raise_for_status r) w1
    = (status_outcome (replies w (sent w)),
       later w1 1 0 (Requested (update_request cfg page_id props)
                     :: failure_notice (replies w (sent w))))).
  { intros props w1 Hsame. destruct (replies w (sent w)) as [r|] eqn:Hr.
    - rewrite (bind_ok _ _ _ _ _ (requests_send_answered _ _ _ Hsame)).
      unfold status_outcome, failure_notice, raise_for_status.
      destruct (400 <=? status_code r).
      + rewrite (bind_ok _ _ _ _ _ (print_later _ _)), later_later.
        by destruct (error_status (status_code r)).
      + unfold mbind, M_bind, mret, M_ret.
        by destruct (error_status (status_code r)).
    - by rewrite (bind_raise _ _ _ _ _ (requests_send_unanswered _ _ Hsame)). }
  pose proof (payload_error PRICE_PROP LAST_UPDATED_PROP price stamp) as Hjson.
  rewrite Hfinite in Hjson.
  unfold notion_update_price.
  rewrite (bind_ok _ _ _ _ _ (lift_ok _ _ w Hprice)). cbn [negb].
  rewrite (bind_ok _ _ _ _ _ (lift_ok _ _ w Hlast)).
  subst stamp. destruct has_last_updated.
  - assert (Hstamp :
      (now ← datetime_now_utc;
       mret (dict_set LAST_UPDATED_PROP
               (VDict [("date", VDict [("start", VStr (isoformat now))])])
               [(PRICE_PROP, VDict [("number", VFloat price)])])) w
      = (Ok (update_properties price (Some (instants w (clock_reads w)))),
         later w 0 1 [])).
    { by rewrite (bind_ok _ _ _ _ _ (datetime_now_later w)). }
    rewrite (bind_ok _ _ _ _ _ Hstamp).
    rewrite (requests_patch_sends _ _ _ _ Hjson).
    etrans; [apply Hsend|].
    + simpl. by rewrite Nat.add_0_r.
    + by rewrite later_later.
  - unfold mbind at 1, M_bind at 1, mret at 1, M_ret at 1.
    rewrite (requests_patch_sends _ _ _ _ Hjson).
    by apply Hsend.
Qed.

(** The updater at a price that is NaN or an infinity: the payload is built,
    with its reading of the clock, and refused by the encoder. *)
Lemma update_unencodable database_props page_id price (has_last_updated : bool) w :
  py_in PRICE_PROP database_props = Ok true ->
  py_in LAST_UPDATED_PROP database_props = Ok has_last_updated ->
  non_finite price = true ->
  notion_update_price cfg database_props page_id price w
  = (Raise InvalidJSONError, later w 0 (if has_last_updated then 1 else 0) []).
Proof.
  intros Hprice Hlast Hfinite.
  pose proof (payload_error PRICE_PROP LAST_UPDATED_PROP price
                (if has_last_updated then Some (instants w (clock_reads w)) else None))
    as Hjson.
  rewrite Hfinite in Hjson.
  unfold notion_update_price.
  rewrite (bind_ok _ _ _ _ _ (lift_ok _ _ w Hprice)). cbn [negb].
  rewrite (bind_ok _ _ _ _ _ (lift_ok _ _ w Hlast)).
  destruct has_last_updated.
  - assert (Hstamp :
      (now ← datetime_now_utc;
       mret (dict_set LAST_UPDATED_PROP
               (VDict [("date", VDict [("start", VStr (isoformat now))])])
               [(PRICE_PROP, VDict [("number", VFloat price)])])) w
      = (Ok (update_properties price (Some (instants w (clock_reads w)))),
         later w 0 1 [])).
    { by rewrite (bind_ok _ _ _ _ _ (datetime_now_later w)). }
    rewrite (bind_ok _ _ _ _ _ Hstamp).
    exact (patch_refused _ _ _ _ _ (later w 0 1 []) Hjson).
  - unfold mbind at 1, M_bind at 1, mret at 1, M_ret at 1.
    etrans; [exact (patch_refused _ _ _ _ _ w Hjson)|]. by rewrite later_nothing.
Qed.
End Script.

End EtfFacts.

(** ** [crypto_etf_sync.py]: how much a run asks of the network *)

Module EtfBounds.
Import Py World WorldFacts BoundFacts CryptoEtfSync EtfFacts.

Lemma within_one_read {A} (m : M A) (rq : request) :
  (forall w, (m w).2 = later w 1 0 [Requested rq]) ->
  is_write rq = false ->
  within m 1 0 0.
Proof.
  intros Hm Hrq w. exists 0%nat, [Requested rq]. rewrite Hm.
  unfold writes_of. simpl. rewrite filter_cons_False by (by rewrite Hrq).
  repeat split; simpl; lia.
Qed.

Ltac within_split n p s n' p' s' :=
  apply (within_weaken _ (n + n') (p + p') (s + s'));
  [apply within_bind; [|intros|lia]|simpl; lia..].

Ltac within_raises := eapply within_weaken; [apply within_raise|simpl; lia..].

Section Script.
Context `{Builtins} (cfg : settings).

Lemma within_yahoo ticker : within (yahoo_last_price ticker) 1 0 0.
Proof.
  apply (within_one_read _ (quote_request ticker)); [|done].
  intros w. by rewrite yahoo_run.
Qed.

Lemma within_schema_read database_id :
  within (notion_get_database_properties cfg database_id) 1 0 0.
Proof.
  apply (within_one_read _ (schema_request cfg database_id)); [|done].
  intros w. by rewrite schema_read_run.
Qed.

Lemma within_locator database_id title_value :
  within (notion_find_page_id_by_title cfg database_id title_value) 1 0 0.
Proof.
  apply (within_one_read _ (query_request cfg database_id title_value)); [|done].
  intros w. by rewrite locator_run.
Qed.

Lemma failure_notice_quiet rp :
  requests_of (failure_notice rp) = [] /\ sleeps_of (failure_notice rp) = [].
Proof.
  unfold failure_notice. destruct rp as [r|]; [|done].
  by destruct (400 <=? status_code r).
Qed.

Lemma within_update database_props page_id price :
  within (notion_update_price cfg database_props page_id price) 1 1 0.
Proof.
  intros w.
  destruct (py_in PRICE_PROP database_props) as [[|]|e] eqn:Hprice.
  - assert (exists b, py_in LAST_UPDATED_PROP database_props = Ok b) as [b Hlast].
    { destruct database_props; try discriminate; by eexists. }
    destruct (non_finite price) eqn:Hfinite.
    { rewrite (update_unencodable cfg _ page_id price b w Hprice Hlast Hfinite).
      exists (if b then 1 else 0)%nat, []. simpl. repeat split; lia. }
    rewrite (update_run cfg _ page_id price b w Hprice Hlast Hfinite). cbn [snd].
    destruct (failure_notice_quiet (replies w (sent w))) as [Hreqs Hsleeps].
    set (notice := failure_notice _) in *.
    set (rq := update_request _ _ _).
    exists (if b then 1 else 0)%nat, (Requested rq :: notice).
    change (requests_of (Requested rq :: notice)) with (rq :: requests_of notice).
    change (sleeps_of (Requested rq :: notice)) with (sleeps_of notice).
    unfold writes_of.
    change (requests_of (Requested rq :: notice)) with (rq :: requests_of notice).
    rewrite Hreqs, Hsleeps. simpl. repeat split; lia.
  - destruct (UpdaterFacts.etf_update_refused cfg database_props page_id price w)
      as (e & -> & _); [by rewrite Hprice|].
    exists 0%nat, []. simpl. rewrite later_nothing. repeat split; lia.
  - destruct (UpdaterFacts.etf_update_refused cfg database_props page_id price w)
      as (e' & -> & _); [by rewrite Hprice|].
    exists 0%nat, []. simpl. rewrite later_nothing. repeat split; lia.
Qed.

(** Locating a row, updating it and reporting it. *)
Lemma within_locate_update db_props database_id notion_name price line :
  within (page_id ← notion_find_page_id_by_title cfg database_id notion_name;
          notion_update_price cfg db_props page_id price;; print line) 2 1 0.
Proof.
  within_split 1%nat 0%nat 0 1%nat 1%nat 0; [apply within_locator|].
  within_split 1%nat 1%nat 0 0%nat 0%nat 0; [apply within_update|apply within_print].
Qed.

Lemma within_sync_crypto_body db_props prices item :
  within (sync_crypto_body cfg db_props prices item) 2 1 0.
Proof.
  destruct item as [notion_name cg_id]. unfold sync_crypto_body.
  within_split 0%nat 0%nat 0 2%nat 1%nat 0; [apply within_lift|].
  within_split 0%nat 0%nat 0 2%nat 1%nat 0.
  { destruct (negb a); [apply within_ret|].
    within_split 0%nat 0%nat 0 0%nat 0%nat 0; apply within_lift. }
  destruct (negb a0); [within_raises|].
  within_split 0%nat 0%nat 0 2%nat 1%nat 0; [apply within_lift|].
  within_split 0%nat 0%nat 0 2%nat 1%nat 0; [apply within_lift|].
  within_split 0%nat 0%nat 0 2%nat 1%nat 0; [apply within_lift|].
  apply within_locate_update.
Qed.

Lemma within_sync_etfs_body db_props item :
  within (sync_etfs_body cfg db_props item) 3 1 0.
Proof.
  destruct item as [notion_name ticker]. unfold sync_etfs_body.
  within_split 1%nat 0%nat 0 2%nat 1%nat 0; [apply within_yahoo|].
  destruct a as [price|]; [apply within_locate_update|].
  within_raises.
Qed.
Lemma within_sync_crypto : within (sync_crypto cfg) 11 2 42.
Proof.
  unfold sync_crypto.
  within_split 0%nat 0%nat 0 11%nat 2%nat 42; [apply within_print|].
  within_split 1%nat 0%nat 0 10%nat 2%nat 42; [apply within_schema_read|].
  within_split 6%nat 0%nat 42 4%nat 2%nat 0; [apply CoinGeckoExtras.coingecko_within|].
  apply (within_for_each CRYPTO _ 2 1 0); [|lia].
  intros item. apply within_sync_crypto_body.
Qed.

Lemma within_sync_etfs : within (sync_etfs cfg) 7 2 0.
Proof.
  unfold sync_etfs.
  within_split 0%nat 0%nat 0 7%nat 2%nat 0; [apply within_print|].
  within_split 1%nat 0%nat 0 6%nat 2%nat 0; [apply within_schema_read|].
  apply (within_for_each ETFS _ 3 1 0); [|lia].
  intros item. apply within_sync_etfs_body.
Qed.

(** X4. A run of [main] sends at most 18 requests, at most 4 of them writes
    (one per configured instrument), and waits at most 42 seconds in all,
    whatever the feeds and the store reply. *)
Theorem main_within : within (main cfg) 18 4 42.
Proof.
  unfold main.
  within_split 11%nat 2%nat 42 7%nat 2%nat 0; [apply within_sync_crypto|].
  within_split 7%nat 2%nat 0 0%nat 0%nat 0; [apply within_sync_etfs|apply within_print].
Qed.
End Script.

End EtfBounds.

(** ** [crypto_etf_sync.py]: failures and fallbacks of each function *)

Module EtfExtras.
Import Py World WorldFacts BoundFacts CryptoEtfSync EtfFacts.

Section Script.
Context `{Builtins} (cfg : settings).

(** X5. [yahoo_last_price] makes one attempt: whatever the reply, it sends
    exactly one request and neither waits nor prints; a reply of 429, which
    the crypto fetch would try again, raises the HTTP error here, and a
    request without answer raises what [requests] raises. *)
Theorem yahoo_single_attempt ticker w :
  (yahoo_last_price ticker w).2 = later w 1 0 [Requested (quote_request ticker)] /\
  (answered_with w 0 429 -> (yahoo_last_price ticker w).1 = Raise (HTTPError 429)) /\
  (replies w (sent w) = Unanswered ->
   (yahoo_last_price ticker w).1 = Raise RequestException).
Proof.
  rewrite yahoo_run. split; [done|]. split.
  - intros (r & Hr & Hs). rewrite Nat.add_0_r in Hr. simpl. rewrite Hr. simpl.
    by rewrite Hs.
  - intros Hr. simpl. by rewrite Hr.
Qed.

(** X6. When the metadata has no live price (the key is missing or null),
    [yahoo_last_price] returns the previous close, and no price at all when
    that is missing too. *)
Theorem yahoo_falls_back_to_previous_close ticker w r data chart first rest meta :
  replies w (sent w) = Answered r ->
  error_status (status_code r) = false ->
  json_body r = Some data ->
  py_get data "chart" (VDict []) = Ok (VDict chart) ->
  truthy (from_option id VNone (dict_lookup "error" chart)) = false ->
  dict_lookup "result" chart = Some (VList (first :: rest)) ->
  py_get first "meta" (VDict []) = Ok (VDict meta) ->
  from_option id VNone (dict_lookup "regularMarketPrice" meta) = VNone ->
  (forall close,
     dict_lookup "previousClose" meta = Some (VFloat close) ->
     (yahoo_last_price ticker w).1 = Ok (Some close)) /\
  (from_option id VNone (dict_lookup "previousClose" meta) = VNone ->
   (yahoo_last_price ticker w).1 = Ok None).
Proof.
  intros Hr Hok Hbody Hchart Herr Hresult Hmeta Hlive.
  rewrite (YahooClaims.yahoo_decoded _ _ _ _ Hr Hok Hbody). cbn [fst].
  rewrite (YahooClaims.quote_of_meta _ _ _ _ _ Hchart Herr Hresult Hmeta).
  rewrite Hlive. cbn [truthy]. split.
  - intros close Hclose. by rewrite Hclose.
  - by intros ->.
Qed.

(** X7. A schema reply that is an object without [properties] reads as the
    empty schema, and with the empty schema every update is refused before
    any request. *)
Theorem schema_without_properties database_id w r entries :
  replies w (sent w) = Answered r ->
  error_status (status_code r) = false ->
  json_body r = Some (VDict entries) ->
  dict_lookup "properties" entries = None ->
  notion_get_database_properties cfg database_id w
  = (Ok (VDict []), later w 1 0 [Requested (schema_request cfg database_id)]) /\
  forall page_id price w1,
    notion_update_price cfg (VDict []) page_id price w1
    = (Raise (RuntimeError ("Notion 数据库缺少列: " +:+ PRICE_PROP)), w1).
Proof.
  intros Hr Hok Hbody Hprops. split.
  - rewrite schema_read_run, Hr. simpl. rewrite Hok, Hbody. simpl. by rewrite Hprops.
  - intros page_id price w1.
    destruct (UpdaterFacts.etf_update_refused cfg (VDict []) page_id price w1)
      as (e & -> & He); [done|]. by rewrite He.
Qed.

(** X8. The locator sends one query whatever the reply and never writes. An
    error status raises the HTTP error; a first row that is an object without
    [id] raises [KeyError], and one that is not an object [TypeError]. *)
Theorem locator_failures database_id title_value w :
  (notion_find_page_id_by_title cfg database_id title_value w).2
  = later w 1 0 [Requested (query_request cfg database_id title_value)] /\
  (forall r,
     replies w (sent w) = Answered r ->
     error_status (status_code r) = true ->
     (notion_find_page_id_by_title cfg database_id title_value w).1
     = Raise (HTTPError (status_code r))) /\
  (forall r body first rest,
     replies w (sent w) = Answered r ->
     error_status (status_code r) = false ->
     json_body r = Some body ->
     py_get body "results" (VList []) = Ok (VList (first :: rest)) ->
     (notion_find_page_id_by_title cfg database_id title_value w).1
     = match first with
       | VDict fields =>
           match dict_lookup "id" fields with
           | Some page_id => Ok page_id
           | None => Raise (KeyError (VStr "id"))
           end
       | _ => Raise TypeError
       end).
Proof.
  rewrite locator_run. split; [done|]. split.
  - intros r Hr Herr. simpl. rewrite Hr. simpl. by rewrite Herr.
  - intros r body first rest Hr Hok Hbody Hresults. simpl. rewrite Hr. simpl.
    rewrite Hok, Hbody. simpl. unfold page_id_of. rewrite Hresults. simpl.
    by destruct first.
Qed.

(** X9. When the price field is in the schema and the price is a finite
    number, the updater sends its one PATCH and goes by the status of the
    reply: below 400 it returns without a word; from 400 to 599 it prints the
    status and the body of the reply and then raises the HTTP error. *)
Theorem update_reports_failure database_props page_id price w r :
  py_in PRICE_PROP database_props = Ok true ->
  non_finite price = false ->
  replies w (sent w) = Answered r ->
  exists (has_last_updated : bool),
    py_in LAST_UPDATED_PROP database_props = Ok has_last_updated /\
    let stamp := if has_last_updated then Some (instants w (clock_reads w)) else None in
    let sent_request :=
      Requested (update_request cfg page_id (update_properties price stamp)) in
    let reads := if has_last_updated then 1%nat else 0%nat in
    (status_code r < 400 ->
     notion_update_price cfg database_props page_id price w
     = (Ok (), later w 1 reads [sent_request])) /\
    (400 <= status_code r < 600 ->
     notion_update_price cfg database_props page_id price w
     = (Raise (HTTPError (status_code r)),
        later w 1 reads
          [sent_request;
           Printed ("[Notion] Update failed: " +:+ str_of_int (status_code r)
                    +:+ " " +:+ text r)])).
Proof.
  intros Hprice Hfinite Hr.
  assert (exists b, py_in LAST_UPDATED_PROP database_props = Ok b) as [b Hlast].
  { destruct database_props; try discriminate; by eexists. }
  exists b. split; [done|]. intros stamp sent_request reads.
  rewrite (update_run cfg _ page_id price b w Hprice Hlast Hfinite), Hr.
  unfold status_outcome, failure_notice, error_status. split.
  - intros Hs. destruct (Z.leb_spec 400 (status_code r)); [lia|]. done.
  - intros [Hlo Hhi]. destruct (Z.leb_spec 400 (status_code r)); [|lia].
    destruct (Z.ltb_spec (status_code r) 600); [|lia]. done.
Qed.

(** X16. When the price field is in the schema and the price is NaN or an
    infinity, the updater builds the payload, reading the clock if the
    schema has the timestamp field, and stops there: the payload cannot be
    encoded, [InvalidJSONError] is raised, and no request is sent and nothing
    printed. *)
Theorem update_refuses_non_finite_price database_props page_id price w :
  py_in PRICE_PROP database_props = Ok true ->
  non_finite price = true ->
  exists (has_last_updated : bool),
    py_in LAST_UPDATED_PROP database_props = Ok has_last_updated /\
    notion_update_price cfg database_props page_id price w
    = (Raise InvalidJSONError, later w 0 (if has_last_updated then 1 else 0) []).
Proof.
  intros Hprice Hfinite.
  assert (exists b, py_in LAST_UPDATED_PROP database_props = Ok b) as [b Hlast].
  { destruct database_props; try discriminate; by eexists. }
  exists b. split; [done|].
  exact (update_unencodable cfg _ page_id price b w Hprice Hlast Hfinite).
Qed.
End Script.

Lemma yahoo_single_attempt_witness :
  @yahoo_last_price Samples.plain_builtins "IVV.AX" Samples.always_limited
  = (Raise (HTTPError 429),
     later Samples.always_limited 1 0 [Requested (quote_request "IVV.AX")]).
Proof.
  destruct (@yahoo_single_attempt Samples.plain_builtins "IVV.AX" Samples.always_limited)
    as (Hworld & Hlimited & _).
  rewrite <- Hworld, <- Hlimited.
  - by destruct (yahoo_last_price _ _).
  - eexists. split; reflexivity.
Defined.

Lemma yahoo_falls_back_to_previous_close_witness :
  (@yahoo_last_price Samples.plain_builtins "IVV.AX" Samples.closed_market).1
  = Ok (Some Samples.forty_two).
Proof.
  refine (proj1 (@yahoo_falls_back_to_previous_close Samples.plain_builtins "IVV.AX"
                   Samples.closed_market _ _ _ _ _ _
                   eq_refl eq_refl eq_refl eq_refl eq_refl eq_refl eq_refl eq_refl)
            Samples.forty_two eq_refl).
Defined.

Lemma schema_without_properties_witness :
  notion_get_database_properties Samples.settings "etf-db" Samples.bare_schema
  = (Ok (VDict []),
     later Samples.bare_schema 1 0 [Requested (schema_request Samples.settings "etf-db")]).
Proof.
  exact (proj1 (@schema_without_properties Samples.plain_builtins Samples.settings
                  "etf-db" Samples.bare_schema _ _ eq_refl eq_refl eq_refl eq_refl)).
Defined.

Lemma locator_failures_witness :
  (notion_find_page_id_by_title Samples.settings "etf-db" "IVV" Samples.row_without_id).1
  = Raise (KeyError (VStr "id")).
Proof.
  destruct (locator_failures Samples.settings "etf-db" "IVV" Samples.row_without_id)
    as (_ & _ & Hrow).
  exact (Hrow _ _ _ _ eq_refl eq_refl eq_refl eq_refl).
Defined.

Lemma update_reports_failure_witness :
  exists w',
    @notion_update_price Samples.plain_builtins Samples.settings Samples.properties
      (VStr "page-1") Samples.forty_two Samples.update_refused
    = (Raise (HTTPError 400), w') /\
    log w' !! 1%nat = Some (Printed "[Notion] Update failed: 400 validation_error").
Proof.
  destruct (@update_reports_failure Samples.plain_builtins Samples.settings
              Samples.properties (VStr "page-1") Samples.forty_two Samples.update_refused
              _ eq_refl eq_refl eq_refl) as (b & _ & _ & Hfailed).
  eexists. split; [apply Hfailed; simpl; lia|].
  by destruct b.
Defined.

Lemma update_refuses_non_finite_price_witness :
  @notion_update_price Samples.plain_builtins Samples.settings Samples.properties
    (VStr "page-1") (S754_infinity false) Samples.store_up
  = (Raise InvalidJSONError, later Samples.store_up 0 1 []).
Proof.
  destruct (@update_refuses_non_finite_price Samples.plain_builtins Samples.settings
              Samples.properties (VStr "page-1") (S754_infinity false) Samples.store_up
              eq_refl eq_refl) as (b & Hlast & Hrun).
  injection Hlast as <-. exact Hrun.
Defined.

End EtfExtras.

(** ** [crypto_etf_sync.py]: one instrument from quote to row *)

Module EtfRows.
Import Py World WorldFacts BoundFacts CryptoEtfSync EtfFacts.

Section Script.
Context `{Builtins} (cfg : settings).

(** The row is found, the update of a finite price accepted, the line
    printed. *)
Lemma locate_update_run db_props database_id notion_name price line
    w r1 body fields rest page_id (has_last_updated : bool) r2 :
  replies w (sent w) = Answered r1 ->
  error_status (status_code r1) = false ->
  json_body r1 = Some body ->
  py_get body "results" (VList []) = Ok (VList (VDict fields :: rest)) ->
  dict_lookup "id" fields = Some page_id ->
  py_in PRICE_PROP db_props = Ok true ->
  py_in LAST_UPDATED_PROP db_props = Ok has_last_updated ->
  non_finite price = false ->
  replies w (sent w + 1)%nat = Answered r2 ->
  status_code r2 < 400 ->
  let stamp := if has_last_updated then Some (instants w (clock_reads w)) else None in
  (page_id ← notion_find_page_id_by_title cfg database_id notion_name;
   notion_update_price cfg db_props page_id price;; print line) w
  = (Ok (),
     later w 2 (if has_last_updated then 1 else 0)
       [Requested (query_request cfg database_id notion_name);
        Requested (update_request cfg page_id (update_properties price stamp));
        Printed line]).
Proof.
  intros Hr1 Hok1 Hbody Hresults Hid Hprice Hlast Hfinite Hr2 Hs2 stamp.
  assert (Hfind : notion_find_page_id_by_title cfg database_id notion_name w
                  = (Ok page_id,
                     later w 1 0 [Requested (query_request cfg database_id notion_name)])).
  { rewrite locator_run, Hr1. simpl. rewrite Hok1, Hbody. simpl.
    unfold page_id_of. rewrite Hresults. simpl. by rewrite Hid. }
  rewrite (bind_ok _ _ _ _ _ Hfind).
  set (w1 := later w 1 0 _).
  assert (Hr2' : replies w1 (sent w1) = Answered r2) by done.
  assert (Hupdate : notion_update_price cfg db_props page_id price w1
                    = (Ok (),
                       later w1 1 (if has_last_updated then 1 else 0)
                         [Requested (update_request cfg page_id
                                       (update_properties price stamp))])).
  { rewrite (update_run cfg _ page_id price has_last_updated w1 Hprice Hlast Hfinite), Hr2'.
    unfold status_outcome, failure_notice, error_status.
    destruct (Z.leb_spec 400 (status_code r2)); [lia|].
    subst w1 stamp. simpl. by rewrite Nat.add_0_r. }
  rewrite (bind_ok _ _ _ _ _ Hupdate), print_later.
  subst w1. rewrite !later_later. by destruct has_last_updated.
Qed.

(** X10. One round of the loop of [sync_etfs] when all goes well and the
    quote is a finite number: the quote is fetched, the row found by the name
    of the instrument, the price (and the instant, if the schema has the
    field) written to that row, and the line printed; three requests in that
    order and no other effect. *)
Theorem etf_row_updated db_props notion_name ticker
    w r0 data price r1 body fields rest page_id (has_last_updated : bool) r2 :
  replies w (sent w) = Answered r0 ->
  error_status (status_code r0) = false ->
  json_body r0 = Some data ->
  quote_of data = Ok (Some price) ->
  non_finite price = false ->
  replies w (sent w + 1)%nat = Answered r1 ->
  error_status (status_code r1) = false ->
  json_body r1 = Some body ->
  py_get body "results" (VList []) = Ok (VList (VDict fields :: rest)) ->
  dict_lookup "id" fields = Some page_id ->
  py_in PRICE_PROP db_props = Ok true ->
  py_in LAST_UPDATED_PROP db_props = Ok has_last_updated ->
  replies w (sent w + 2)%nat = Answered r2 ->
  status_code r2 < 400 ->
  let stamp := if has_last_updated then Some (instants w (clock_reads w)) else None in
  sync_etfs_body cfg db_props (notion_name, ticker) w
  = (Ok (),
     later w 3 (if has_last_updated then 1 else 0)
       [Requested (quote_request ticker);
        Requested (query_request cfg (ETF_DB_ID cfg) notion_name);
        Requested (update_request cfg page_id (update_properties price stamp));
        Printed ("✅ ETF Updated " +:+ notion_name +:+ " (" +:+ ticker +:+ "): "
                 +:+ py_str (VFloat price) +:+ " AUD")]).
Proof.
  intros Hr0 Hok0 Hdata Hquote Hfinite Hr1 Hok1 Hbody Hresults Hid Hprice Hlast Hr2 Hs2
    stamp.
  assert (Hyahoo : yahoo_last_price ticker w
                   = (Ok (Some price), later w 1 0 [Requested (quote_request ticker)])).
  { rewrite yahoo_run, Hr0. simpl. rewrite Hok0, Hdata. simpl. by rewrite Hquote. }
  unfold sync_etfs_body. rewrite (bind_ok _ _ _ _ _ Hyahoo).
  set (w1 := later w 1 0 _).
  rewrite (locate_update_run db_props (ETF_DB_ID cfg) notion_name price _
             w1 r1 body fields rest page_id has_last_updated r2); try done.
  - subst w1 stamp. rewrite later_later. simpl. rewrite Nat.add_0_r.
    by destruct has_last_updated.
  - subst w1. simpl. by rewrite <- Nat.add_assoc.
Qed.

(** X11. One round of the loop of [sync_crypto] when all goes well and the
    quote is a finite number: the quote of the coin in [VS_CURRENCY] is taken
    from the prices and turned into a float, the row found by the name of the
    coin and updated with it; two requests, the query then the write. *)
Theorem crypto_row_updated db_props entries notion_name cg_id quotes quote price
    w r1 body fields rest page_id (has_last_updated : bool) r2 :
  dict_lookup cg_id entries = Some (VDict quotes) ->
  dict_lookup VS_CURRENCY quotes = Some quote ->
  py_float quote = Ok price ->
  non_finite price = false ->
  replies w (sent w) = Answered r1 ->
  error_status (status_code r1) = false ->
  json_body r1 = Some body ->
  py_get body "results" (VList []) = Ok (VList (VDict fields :: rest)) ->
  dict_lookup "id" fields = Some page_id ->
  py_in PRICE_PROP db_props = Ok true ->
  py_in LAST_UPDATED_PROP db_props = Ok has_last_updated ->
  replies w (sent w + 1)%nat = Answered r2 ->
  status_code r2 < 400 ->
  let stamp := if has_last_updated then Some (instants w (clock_reads w)) else None in
  sync_crypto_body cfg db_props (VDict entries) (notion_name, cg_id) w
  = (Ok (),
     later w 2 (if has_last_updated then 1 else 0)
       [Requested (query_request cfg (CRYPTO_DB_ID cfg) notion_name);
        Requested (update_request cfg page_id (update_properties price stamp));
        Printed ("✅ Crypto Updated " +:+ notion_name +:+ ": " +:+ py_str (VFloat price)
                 +:+ " " +:+ str_upper VS_CURRENCY)]).
Proof.
  intros Hcoin Hquote Hprice_of Hfinite Hr1 Hok1 Hbody Hresults Hid Hprice Hlast Hr2 Hs2
    stamp.
  unfold sync_crypto_body.
  assert (Hlisted : py_in cg_id (VDict entries) = Ok true) by (simpl; by rewrite Hcoin).
  assert (Hquotes : py_item (VDict entries) cg_id = Ok (VDict quotes))
    by (simpl; by rewrite Hcoin).
  assert (Hquoted : py_in VS_CURRENCY (VDict quotes) = Ok true)
    by (simpl; by rewrite Hquote).
  assert (Hitem : py_item (VDict quotes) VS_CURRENCY = Ok quote)
    by (simpl; by rewrite Hquote).
  rewrite (bind_ok _ _ _ _ _ (lift_ok _ _ w Hlisted)). cbn [negb].
  assert (Hcheck : (quotes0 ← lift (py_item (VDict entries) cg_id);
                    lift (py_in VS_CURRENCY quotes0)) w = (Ok true, w)).
  { rewrite (bind_ok _ _ _ _ _ (lift_ok _ _ w Hquotes)). by apply lift_ok. }
  rewrite (bind_ok _ _ _ _ _ Hcheck). cbn [negb].
  rewrite (bind_ok _ _ _ _ _ (lift_ok _ _ w Hquotes)).
  rewrite (bind_ok _ _ _ _ _ (lift_ok _ _ w Hitem)).
  rewrite (bind_ok _ _ _ _ _ (lift_ok _ _ w Hprice_of)).
  by apply (locate_update_run db_props (CRYPTO_DB_ID cfg) notion_name price _
              w r1 body fields rest page_id has_last_updated r2).
Qed.
End Script.

Lemma etf_row_updated_witness :
  exists w',
    @sync_etfs_body Samples.plain_builtins Samples.settings Samples.properties
      ("IVV", "IVV.AX") Samples.etf_updated = (Ok (), w') /\
    method <$> requests_of (log w') = [GET; POST; PATCH].
Proof.
  eexists. split.
  - exact (@etf_row_updated Samples.plain_builtins Samples.settings Samples.properties
             "IVV" "IVV.AX" Samples.etf_updated _ _ Samples.forty_two _ _ _ _ _ true _
             eq_refl eq_refl eq_refl eq_refl eq_refl eq_refl eq_refl eq_refl eq_refl
             eq_refl eq_refl eq_refl eq_refl eq_refl).
  - reflexivity.
Defined.

Lemma crypto_row_updated_witness :
  exists w',
    @sync_crypto_body Samples.plain_builtins Samples.settings Samples.properties
      Samples.bitcoin_quote ("Bitcoin", "bitcoin") Samples.crypto_updated = (Ok (), w') /\
    method <$> requests_of (log w') = [POST; PATCH].
Proof.
  eexists. split.
  - exact (@crypto_row_updated Samples.plain_builtins Samples.settings Samples.properties
             [("bitcoin", VDict [("aud", VFloat (S754_finite false 6683003472314368 (-36)))])]
             "Bitcoin" "bitcoin" _ _ _ Samples.crypto_updated _ _ _ _ _ true _
             eq_refl eq_refl eq_refl eq_refl eq_refl eq_refl eq_refl eq_refl
             eq_refl eq_refl eq_refl eq_refl eq_refl).
  - reflexivity.
Defined.

End EtfRows.

(** ** [crypto_etf_sync.py]: a store without the price column, a missing setting *)

Module EtfRefusals.
Import Py World WorldFacts BoundFacts CryptoEtfSync EtfFacts EtfBounds.

Lemma always_raises_raise {A} e : always_raises (@raise A e).
Proof. intros w. by exists e. Qed.

Lemma always_raises_bind {A B} (m : M A) (f : A -> M B) :
  (forall a, always_raises (f a)) -> always_raises (m ≫= f).
Proof.
  intros Hf w. unfold mbind, M_bind. destruct (m w) as [[a|e] w1].
  - apply Hf.
  - by exists e.
Qed.

Lemma always_raises_first {A B} (m : M A) (f : A -> M B) :
  always_raises m -> always_raises (m ≫= f).
Proof.
  intros Hm w. destruct (Hm w) as (e & He). unfold mbind, M_bind.
  destruct (m w) as [[a|e'] w1]; simpl in He; [done|]. by exists e'.
Qed.

(** What comes after a computation that always raises adds nothing. *)
Lemma within_first {A B} (m : M A) (f : A -> M B) n p s :
  always_raises m -> within m n p s -> within (m ≫= f) n p s.
Proof.
  intros Hraises Hm w. destruct (Hraises w) as (e & He).
  destruct (Hm w) as (c & events & Hw & Hbounds).
  exists c, events. unfold mbind, M_bind.
  destruct (m w) as [[a|e'] w1]; simpl in He; [done|]. done.
Qed.

Section Script.
Context `{Builtins} (cfg : settings).
Variable db_props : value.
Hypothesis Hno_price : py_in PRICE_PROP db_props <> Ok true.

Lemma update_always_refused page_id price :
  always_raises (notion_update_price cfg db_props page_id price) /\
  within (notion_update_price cfg db_props page_id price) 0 0 0.
Proof.
  split.
  - intros w.
    destruct (UpdaterFacts.etf_update_refused cfg db_props page_id price w Hno_price)
      as (e & -> & _). by exists e.
  - apply within_still. intros w.
    by destruct (UpdaterFacts.etf_update_refused cfg db_props page_id price w Hno_price)
      as (e & -> & _).
Qed.

Lemma locate_update_refused database_id notion_name price line :
  always_raises (page_id ← notion_find_page_id_by_title cfg database_id notion_name;
                 notion_update_price cfg db_props page_id price;; print line) /\
  within (page_id ← notion_find_page_id_by_title cfg database_id notion_name;
          notion_update_price cfg db_props page_id price;; print line) 1 0 0.
Proof.
  split.
  - apply always_raises_bind. intros page_id.
    apply always_raises_first, update_always_refused.
  - within_split 1%nat 0%nat 0 0%nat 0%nat 0; [apply within_locator|].
    apply within_first; apply update_always_refused.
Qed.

Lemma sync_crypto_body_refused prices item :
  always_raises (sync_crypto_body cfg db_props prices item) /\
  within (sync_crypto_body cfg db_props prices item) 1 0 0.
Proof.
  destruct item as [notion_name cg_id]. unfold sync_crypto_body. split.
  - apply always_raises_bind. intros listed.
    apply always_raises_bind. intros quoted.
    destruct (negb quoted); [apply always_raises_raise|].
    do 3 (apply always_raises_bind; intros ?).
    apply locate_update_refused.
  - within_split 0%nat 0%nat 0 1%nat 0%nat 0; [apply within_lift|].
    within_split 0%nat 0%nat 0 1%nat 0%nat 0.
    { destruct (negb a); [apply within_ret|].
      within_split 0%nat 0%nat 0 0%nat 0%nat 0; apply within_lift. }
    destruct (negb a0); [within_raises|].
    within_split 0%nat 0%nat 0 1%nat 0%nat 0; [apply within_lift|].
    within_split 0%nat 0%nat 0 1%nat 0%nat 0; [apply within_lift|].
    within_split 0%nat 0%nat 0 1%nat 0%nat 0; [apply within_lift|].
    apply locate_update_refused.
Qed.

Lemma sync_etfs_body_refused item :
  always_raises (sync_etfs_body cfg db_props item) /\
  within (sync_etfs_body cfg db_props item) 2 0 0.
Proof.
  destruct item as [notion_name ticker]. unfold sync_etfs_body. split.
  - apply always_raises_bind. intros [price|];
      [apply locate_update_refused|apply always_raises_raise].
  - within_split 1%nat 0%nat 0 1%nat 0%nat 0; [apply within_yahoo|].
    destruct a as [price|]; [apply locate_update_refused|within_raises].
Qed.

(** X12. With a schema that lacks the price field, the loops of
    [sync_crypto] and [sync_etfs] stop at their first instrument with an
    exception and without a single write: the crypto loop after at most one
    request (the query), the ETF loop after at most two (the quote and the
    query). *)
Theorem no_write_without_price_column :
  (forall prices,
     always_raises (for_each CRYPTO (sync_crypto_body cfg db_props prices)) /\
     within (for_each CRYPTO (sync_crypto_body cfg db_props prices)) 1 0 0) /\
  (always_raises (for_each ETFS (sync_etfs_body cfg db_props)) /\
   within (for_each ETFS (sync_etfs_body cfg db_props)) 2 0 0).
Proof.
  split; [intros prices|]; unfold CRYPTO, ETFS; cbn [for_each]; split.
  - apply always_raises_first, sync_crypto_body_refused.
  - apply within_first; apply sync_crypto_body_refused.
  - apply always_raises_first, sync_etfs_body_refused.
  - apply within_first; apply sync_etfs_body_refused.
Qed.
End Script.

Lemma no_write_without_price_column_witness :
  exists e w',
    for_each ETFS
      (@sync_etfs_body Samples.plain_builtins Samples.settings
         Samples.properties_without_price) Samples.lookups_only = (Raise e, w') /\
    method <$> requests_of (log w') = [GET; POST].
Proof.
  destruct (@no_write_without_price_column Samples.plain_builtins Samples.settings
              Samples.properties_without_price) as [_ [Hraises _]].
  - discriminate.
  - destruct (Hraises Samples.lookups_only) as (e & He).
    exists e. eexists. split.
    + rewrite <- He. apply surjective_pairing.
    + reflexivity.
Defined.

(** X13. The script needs its three settings: if one is missing from the
    environment, the run ends with a [KeyError] for the first missing one
    (in the order of the module body) before anything else happens; with all
    three, the run is [main] with them. *)
Theorem run_needs_settings `{Builtins} environ w :
  (environ !! "NOTION_TOKEN" = None ->
   run environ w = (Raise (KeyError (VStr "NOTION_TOKEN")), w)) /\
  (is_Some (environ !! "NOTION_TOKEN") ->
   environ !! "NOTION_CRYPTO_DB_ID" = None ->
   run environ w = (Raise (KeyError (VStr "NOTION_CRYPTO_DB_ID")), w)) /\
  (is_Some (environ !! "NOTION_TOKEN") ->
   is_Some (environ !! "NOTION_CRYPTO_DB_ID") ->
   environ !! "NOTION_ETF_DB_ID" = None ->
   run environ w = (Raise (KeyError (VStr "NOTION_ETF_DB_ID")), w)) /\
  (forall token crypto_db etf_db,
     environ !! "NOTION_TOKEN" = Some token ->
     environ !! "NOTION_CRYPTO_DB_ID" = Some crypto_db ->
     environ !! "NOTION_ETF_DB_ID" = Some etf_db ->
     run environ w
     = main {| NOTION_TOKEN := token; CRYPTO_DB_ID := crypto_db; ETF_DB_ID := etf_db |} w).
Proof.
  unfold run, module_body, environ_item, mbind, result_bind.
  repeat split.
  - by intros ->.
  - intros [token ->] ->. done.
  - intros [token ->] [crypto_db ->] ->. done.
  - intros token crypto_db etf_db -> -> ->. done.
Qed.

Lemma run_needs_settings_witness :
  @run Samples.plain_builtins Samples.environ_without_etf_db Samples.store_up
  = (Raise (KeyError (VStr "NOTION_ETF_DB_ID")), Samples.store_up).
Proof.
  destruct (@run_needs_settings Samples.plain_builtins Samples.environ_without_etf_db
              Samples.store_up) as (_ & _ & Hetf & _).
  apply Hetf; [by eexists|by eexists|reflexivity].
Defined.

End EtfRefusals.

(** ** [crypto_sync.py]: the loop body and the updater, taken alone *)

Module CryptoSyncExtras.
Import Py World WorldFacts UpdaterFacts CryptoSync.

Section Script.
Context `{Builtins} (cfg : settings).

(** X14. The loop body of [main] in [crypto_sync.py] does not check the
    prices it is given: a coin missing from them, or a coin without a quote
    in [VS_CURRENCY], raises [KeyError] for the missing key before any
    request. *)
Theorem main_body_missing_quote entries has_last_updated notion_name cg_id w :
  (dict_lookup cg_id entries = None ->
   main_body cfg (VDict entries) has_last_updated (notion_name, cg_id) w
   = (Raise (KeyError (VStr cg_id)), w)) /\
  (forall quotes,
     dict_lookup cg_id entries = Some (VDict quotes) ->
     dict_lookup VS_CURRENCY quotes = None ->
     main_body cfg (VDict entries) has_last_updated (notion_name, cg_id) w
     = (Raise (KeyError (VStr VS_CURRENCY)), w)).
Proof.
  unfold main_body. split.
  - intros Hcoin.
    assert (Hitem : py_item (VDict entries) cg_id = Raise (KeyError (VStr cg_id)))
      by (cbn [py_item]; by rewrite Hcoin).
    apply bind_raise. unfold lift. by rewrite Hitem.
  - intros quotes Hcoin Hquote.
    assert (Hitem : py_item (VDict entries) cg_id = Ok (VDict quotes))
      by (cbn [py_item]; by rewrite Hcoin).
    assert (Hnone : py_item (VDict quotes) VS_CURRENCY
                    = Raise (KeyError (VStr VS_CURRENCY)))
      by (cbn [py_item]; by rewrite Hquote).
    rewrite (bind_ok _ _ _ _ _ (lift_ok _ _ w Hitem)).
    apply bind_raise. unfold lift. by rewrite Hnone.
Qed.

(** X15. The updater of [crypto_sync.py] looks at no schema. At a finite
    price every call sends exactly one PATCH with the price (and the instant
    when the flag is set), prints nothing, and returns or raises by the
    status of the reply alone. At a price that is NaN or an infinity the
    payload is built and cannot be encoded: the call raises
    [InvalidJSONError] and nothing is sent. *)
Theorem crypto_sync_update_run page_id price (has_last_updated : bool) w :
  let stamp := if has_last_updated then Some (instants w (clock_reads w)) else None in
  let reads := if has_last_updated then 1%nat else 0%nat in
  notion_update_price cfg page_id price has_last_updated w
  = if non_finite price
    then (Raise InvalidJSONError, later w 0 reads [])
    else (status_outcome (replies w (sent w)),
          later w 1 reads
            [Requested (update_request cfg page_id (update_properties price stamp))]).
Proof.
  intros stamp reads.
  pose proof (payload_error "Current Price" "Last Updated" price stamp) as Hjson.
  subst stamp reads.
  assert (Hsend : forall props w1,
    replies w1 (sent w1) = replies w (sent w) ->
    (r ← requests_send (update_request cfg page_id props); raise_for_status r) w1
    = (status_outcome (replies w (sent w)),
       later w1 1 0 [Requested (update_request cfg page_id props)])).
  { intros props w1 Hsame. destruct (replies w (sent w)) as [r|] eqn:Hr.
    - rewrite (bind_ok _ _ _ _ _ (requests_send_answered _ _ _ Hsame)).
      unfold status_outcome, raise_for_status.
      by destruct (error_status (status_code r)).
    - by rewrite (bind_raise _ _ _ _ _ (requests_send_unanswered _ _ Hsame)). }
  unfold notion_update_price. destruct has_last_updated.
  - assert (Hstamp :
      (now ← datetime_now_utc;
       mret (dict_set "Last Updated"
               (VDict [("date", VDict [("start", VStr (isoformat now))])])
               [("Current Price", VDict [("number", VFloat price)])])) w
      = (Ok (update_properties price (Some (instants w (clock_reads w)))),
         later w 0 1 [])).
    { by rewrite (bind_ok _ _ _ _ _ (datetime_now_later w)). }
    rewrite (bind_ok _ _ _ _ _ Hstamp).
    destruct (non_finite price).
    + exact (patch_refused _ _ _ _ _ (later w 0 1 []) Hjson).
    + rewrite (requests_patch_sends _ _ _ _ Hjson).
      etrans; [apply Hsend|].
      * simpl. by rewrite Nat.add_0_r.
      * by rewrite later_later.
  - unfold mbind at 1, M_bind at 1, mret at 1, M_ret at 1.
    destruct (non_finite price).
    + etrans; [exact (patch_refused _ _ _ _ _ w Hjson)|]. by rewrite later_nothing.
    + rewrite (requests_patch_sends _ _ _ _ Hjson). by apply Hsend.
Qed.
End Script.

Lemma main_body_missing_quote_witness :
  @main_body Samples.plain_builtins
    {| NOTION_TOKEN := "secret"; CRYPTO_DB_ID := "crypto-db"; ETF_DB_ID := "etf-db" |}
    Samples.bitcoin_quote true ("WLFI", "world-liberty-financial") Samples.store_up
  = (Raise (KeyError (VStr "world-liberty-financial")), Samples.store_up).
Proof.
  exact (proj1 (@main_body_missing_quote Samples.plain_builtins _
                  [("bitcoin", VDict [("aud", VFloat (S754_finite false 6683003472314368
                                                        (-36)))])]
                  true "WLFI" "world-liberty-financial" Samples.store_up) eq_refl).
Defined.

End CryptoSyncExtras.
